(** * Stopping-distance kernel of [stopping.py]

    A shallow embedding of the physics kernel of the stopping-distance
    calculator: the friction combiner [calc_final_friction], the closed-form
    model [stopping_distance_simple_friction], the fixed-step integrator
    [stopping_distance_numeric_drag] and the trajectory sampler
    [get_distance_speed_profile], with the menus of [main] and what [main]
    computes between reading its choices and printing its results.

    Modelling conventions.
    - A Python [float] is a real number of [R]: arithmetic is exact, rounding
      and overflow are not modelled.  [float('inf')] is the constructor
      [Infinite] of [dist].
    - [math.atan], [math.sin], [math.cos] and [abs] are [atan], [sin], [cos]
      and [Rabs] of the standard library.
    - A division whose divisor is zero raises [ZeroDivisionError] in Python;
      the only divisor that can be zero is [mass_kg], and the loop bodies
      return [Raise] there.
    - A [while] loop is a function of a fuel: one unit of fuel per execution
      of the loop body, [None] when the fuel runs out before the loop ends. *)

From Stdlib Require Import String Reals Lra Lia List ZArith Sorted.
Import ListNotations.
Open Scope R_scope.

(** ** Constants and unit conversion *)

Definition AIR_DENSITY : R := 1.225.
Definition G : R := 9.81.

Definition convert_kmh_to_ms (speed_kmh : R) : R := speed_kmh * 1000 / 3600.

Definition convert_ms_to_kmh (speed_ms : R) : R := speed_ms * 3.6.

(** Python's two-argument [max(a, b)]: [b] when [b > a], else [a]. *)
Definition py_max (a b : R) : R := if Rgt_dec b a then b else a.

(** ** Friction combiner *)

Definition calc_final_friction (weather_mu tyre_factor : R) (abs_active : bool) : R :=
  let mu := weather_mu * tyre_factor in
  let mu := if abs_active then mu + 0.05 else mu in
  py_max mu 0.01.

(** ** Closed-form model *)

(** A distance as the closed-form model returns it: a float or [float('inf')]. *)
Inductive dist : Type :=
| Finite (d : R)
| Infinite.

(** Returns [(total_dist, braking_dist, reaction_dist)]. *)
Definition stopping_distance_simple_friction
    (speed_kmh mu slope_percent reaction_time : R) : dist * dist * dist :=
  let speed_ms := convert_kmh_to_ms speed_kmh in
  let alpha := atan (Rabs slope_percent / 100) in
  let is_uphill := if Rge_dec slope_percent 0 then true else false in
  let reaction_dist := speed_ms * reaction_time in
  let slope_acc := if is_uphill then - G * sin alpha else G * sin alpha in
  let a_eff := - mu * G * cos alpha + slope_acc in
  if Rle_dec a_eff 0 then
    (Infinite, Infinite, Finite reaction_dist)
  else
    let braking_dist := speed_ms ^ 2 / (2 * a_eff) in
    let total_dist := reaction_dist + braking_dist in
    (Finite total_dist, Finite braking_dist, Finite reaction_dist).

(** ** Numeric model *)

(** What one execution of a loop body does to the loop. *)
Inductive step (S : Type) : Type :=
| Continue (s : S)
| Break (s : S)
| Raise.
Arguments Continue {S} s.
Arguments Break {S} s.
Arguments Raise {S}.

(** What a call does when it ends: a value, or [ZeroDivisionError]. *)
Inductive result (A : Type) : Type :=
| Returns (a : A)
| ZeroDivisionError.
Arguments Returns {A} a.
Arguments ZeroDivisionError {A}.

(** The loop variables [v], [x], [t] of [stopping_distance_numeric_drag]. *)
Record nstate : Type := mk_nstate { nv : R; nx : R; nt : R }.

Definition max_time : R := 300.

Section NumericLoop.

Variables (mu mass_kg cd frontal_area dt alpha : R) (is_uphill : bool).

(** The body of [while t < max_time].  In the branch [v_new < 0] the code
    assigns [v_new = 0] and breaks; [v] itself is left as it was. *)
Definition numeric_body (s : nstate) : step nstate :=
  let v := nv s in
  let x := nx s in
  let t := nt s in
  if Req_dec_T mass_kg 0 then Raise else
  let drag_acc := (0.5 * AIR_DENSITY * cd * frontal_area * v ^ 2) / mass_kg in
  let slope_acc := if is_uphill then - G * sin alpha else G * sin alpha in
  let a := - mu * G * cos alpha + slope_acc - drag_acc in
  let v_new := v + a * dt in
  if Rlt_dec v_new 0 then
    let dist_this_step := 0.5 * (v + 0) * dt in
    Break (mk_nstate v (x + dist_this_step) t)
  else
    let dist_this_step := 0.5 * (v + v_new) * dt in
    let x := x + dist_this_step in
    let v := v_new in
    let t := t + dt in
    if Rle_dec v 0.01 then Break (mk_nstate 0 x t)
    else Continue (mk_nstate v x t).

Fixpoint numeric_loop (fuel : nat) (s : nstate) : option (result nstate) :=
  if Rlt_dec (nt s) max_time then
    match fuel with
    | O => None
    | S fuel' =>
        match numeric_body s with
        | Continue s' => numeric_loop fuel' s'
        | Break s' => Some (Returns s')
        | Raise => Some ZeroDivisionError
        end
    end
  else Some (Returns s).

(** The acceleration [a] that an iteration computes at velocity [v], and
    the velocity [v_new] it derives from it. *)
Definition net_acc (v : R) : R :=
  - mu * G * cos alpha + (if is_uphill then - G * sin alpha else G * sin alpha)
  - (0.5 * AIR_DENSITY * cd * frontal_area * v ^ 2) / mass_kg.

Definition v_next (v : R) : R := v + net_acc v * dt.

(** The two parts of [net_acc]: what friction and slope contribute, and the
    factor of [v ^ 2] in the drag term. *)
Definition base_acc : R :=
  - mu * G * cos alpha + (if is_uphill then - G * sin alpha else G * sin alpha).

Definition drag_factor : R := 0.5 * AIR_DENSITY * cd * frontal_area / mass_kg.

End NumericLoop.

(** [numeric_iterates body s0 s]: starting the loop in [s0], some iteration
    starts in [s] (after zero or more iterations that went on). *)
Inductive numeric_iterates (body : nstate -> step nstate) : nstate -> nstate -> Prop :=
| iterates_here (s : nstate) : numeric_iterates body s s
| iterates_on (s s' s'' : nstate) :
    nt s < max_time ->
    body s = Continue s' ->
    numeric_iterates body s' s'' ->
    numeric_iterates body s s''.

(** The tuple [(total_dist, reaction_dist, braking_dist, total_time, v)]. *)
Record numeric_result : Type := mk_numeric_result {
  total_dist : R;
  reaction_dist : R;
  braking_dist : R;
  total_time : R;
  final_v : R
}.

Definition stopping_distance_numeric_drag (fuel : nat)
    (speed_kmh mu mass_kg cd frontal_area slope_percent reaction_time dt : R)
    : option (result numeric_result) :=
  let speed_ms := convert_kmh_to_ms speed_kmh in
  let reaction_dist := speed_ms * reaction_time in
  let alpha := atan (Rabs slope_percent / 100) in
  let is_uphill := if Rge_dec slope_percent 0 then true else false in
  match numeric_loop mu mass_kg cd frontal_area dt alpha is_uphill fuel
          (mk_nstate speed_ms 0 0) with
  | None => None
  | Some ZeroDivisionError => Some ZeroDivisionError
  | Some (Returns s) =>
      let braking_dist := nx s in
      let total_dist := reaction_dist + braking_dist in
      let total_time := reaction_time + nt s in
      Some (Returns (mk_numeric_result total_dist reaction_dist braking_dist
                       total_time (nv s)))
  end.

(** ** Profile sampler *)

(** The variables [x], [v], [t] and the two lists of
    [get_distance_speed_profile]. *)
Record pstate : Type := mk_pstate {
  px : R;
  pv : R;
  pt : R;
  distance_vals : list R;
  speed_vals_kmh : list R
}.

Section ProfileLoops.

Variables (mu mass_kg cd frontal_area dt alpha reaction_time : R)
          (is_uphill : bool).

(** The body of [while t <= reaction_time]. *)
Definition reaction_body (s : pstate) : pstate :=
  let distance_vals := distance_vals s ++ [px s] in
  let speed_vals_kmh := speed_vals_kmh s ++ [convert_ms_to_kmh (pv s)] in
  let t := pt s + dt in
  let x := px s + pv s * dt in
  mk_pstate x (pv s) t distance_vals speed_vals_kmh.

Fixpoint reaction_loop (fuel : nat) (s : pstate) : option pstate :=
  if Rle_dec (pt s) reaction_time then
    match fuel with
    | O => None
    | S fuel' => reaction_loop fuel' (reaction_body s)
    end
  else Some s.

(** The body of [while t <= reaction_time + max_time]. *)
Definition braking_body (s : pstate) : step pstate :=
  let v := pv s in
  let x := px s in
  let t := pt s in
  if Req_dec_T mass_kg 0 then Raise else
  let drag_acc := 0.5 * AIR_DENSITY * cd * frontal_area * v ^ 2 / mass_kg in
  let slope_acc := if is_uphill then - G * sin alpha else G * sin alpha in
  let a := - mu * G * cos alpha + slope_acc - drag_acc in
  let v_new := v + a * dt in
  let v_new := if Rlt_dec v_new 0 then 0 else v_new in
  let distance_vals := distance_vals s ++ [x] in
  let speed_vals_kmh := speed_vals_kmh s ++ [convert_ms_to_kmh v_new] in
  let avg_speed := 0.5 * (v + v_new) in
  let x := x + avg_speed * dt in
  let v := v_new in
  let t := t + dt in
  if Rle_dec v 0.01 then Break (mk_pstate x v t distance_vals speed_vals_kmh)
  else Continue (mk_pstate x v t distance_vals speed_vals_kmh).

Fixpoint braking_loop (fuel : nat) (s : pstate) : option (result pstate) :=
  if Rle_dec (pt s) (reaction_time + max_time) then
    match fuel with
    | O => None
    | S fuel' =>
        match braking_body s with
        | Continue s' => braking_loop fuel' s'
        | Break s' => Some (Returns s')
        | Raise => Some ZeroDivisionError
        end
    end
  else Some (Returns s).

(** [v_new] of the braking body after its clamp at zero, and the state
    that an iteration of the braking body leaves. *)
Definition v_clamped (v : R) : R :=
  if Rlt_dec (v_next mu mass_kg cd frontal_area dt alpha is_uphill v) 0 then 0
  else v_next mu mass_kg cd frontal_area dt alpha is_uphill v.

Definition braking_post (s : pstate) : pstate :=
  mk_pstate (px s + 0.5 * (pv s + v_clamped (pv s)) * dt)
    (v_clamped (pv s)) (pt s + dt)
    (distance_vals s ++ [px s])
    (speed_vals_kmh s ++ [convert_ms_to_kmh (v_clamped (pv s))]).

End ProfileLoops.

(** The state in which the sampler's second loop ends; the sampler returns
    its two lists.  [fuel1] is the fuel of the first loop, [fuel2] the fuel
    of the second. *)
Definition profile_run (fuel1 fuel2 : nat)
    (speed_kmh mu mass_kg cd frontal_area slope_percent reaction_time dt : R)
    : option (result pstate) :=
  let speed_ms := convert_kmh_to_ms speed_kmh in
  let alpha := atan (Rabs slope_percent / 100) in
  let is_uphill := if Rge_dec slope_percent 0 then true else false in
  match reaction_loop dt reaction_time fuel1 (mk_pstate 0 speed_ms 0 [] []) with
  | None => None
  | Some s =>
      braking_loop mu mass_kg cd frontal_area dt alpha reaction_time is_uphill
        fuel2 s
  end.

Definition get_distance_speed_profile (fuel1 fuel2 : nat)
    (speed_kmh mu mass_kg cd frontal_area slope_percent reaction_time dt : R)
    : option (result (list R * list R)) :=
  match profile_run fuel1 fuel2 speed_kmh mu mass_kg cd frontal_area
          slope_percent reaction_time dt with
  | None => None
  | Some ZeroDivisionError => Some ZeroDivisionError
  | Some (Returns s) => Some (Returns (distance_vals s, speed_vals_kmh s))
  end.

(** What both loops keep when [v >= 0] and [dt >= 0]: the velocity is not
    negative, the distances recorded are in non-decreasing order and none
    exceeds the current distance, and no speed recorded is negative. *)
Definition profile_inv (s : pstate) : Prop :=
  0 <= pv s /\
  Sorted Rle (distance_vals s) /\
  Forall (fun d => d <= px s) (distance_vals s) /\
  Forall (fun v => 0 <= v) (speed_vals_kmh s).

(** ** The menus and the pure steps of [main]

    [main] reads its choices with [input] and prints its results.  What it
    computes in between is modelled here, step by step, as functions of the
    strings read (already stripped, as [main] strips them); [None] stands
    for a [KeyError]. *)

(** A Python [dict] with string keys, in insertion order. *)
Definition dict (V : Type) : Type := list (string * V).

Fixpoint dict_get {V : Type} (d : dict V) (key : string) : option V :=
  match d with
  | [] => None
  | (k, v) :: d' => if String.eqb key k then Some v else dict_get d' key
  end.

(** [key in d]. *)
Definition dict_mem {V : Type} (key : string) (d : dict V) : bool :=
  match dict_get d key with
  | Some _ => true
  | None => false
  end.

Local Open Scope string_scope.

Definition WEATHER_CONDITIONS : dict (string * R) :=
  [ ("1", ("Dry asphalt", 0.85));
    ("2", ("Wet asphalt", 0.55));
    ("3", ("Snow", 0.20));
    ("4", ("Ice", 0.10)) ].

Definition TYRE_QUALITY : dict (string * R) :=
  [ ("1", ("Good (new / healthy tread)", 1.0));
    ("2", ("Decent (average)", 0.8));
    ("3", ("Poor (low tread)", 0.5)) ].

(** [(mass_kg, Cd, frontal_area_m2)] by model. *)
Definition CAR_DATABASE : dict (R * R * R) :=
  [ ("Toyota HiLux", (2100, 0.40, 2.5));
    ("Toyota Corolla", (1300, 0.29, 2.2));
    ("Toyota RAV4", (1600, 0.33, 2.7));
    ("Mazda CX-5", (1600, 0.33, 2.7));
    ("Hyundai i30", (1300, 0.30, 2.2));
    ("Toyota Camry", (1500, 0.28, 2.2));
    ("Mazda3", (1300, 0.28, 2.2));
    ("Mitsubishi Triton", (2000, 0.42, 2.7));
    ("Nissan X-Trail", (1500, 0.35, 2.7));
    ("Subaru Forester", (1500, 0.35, 2.7)) ].


(** Step 2 of [main]: the entry of the weather chosen, the entry ["1"] when
    the line read is no key of the menu. *)
Definition select_weather (w_choice : string) : option (string * R) :=
  if dict_mem w_choice WEATHER_CONDITIONS then dict_get WEATHER_CONDITIONS w_choice
  else dict_get WEATHER_CONDITIONS "1".

(** Step 3: the tyre entry chosen, the entry ["2"] by default. *)
Definition select_tyre (tyre_choice : string) : option (string * R) :=
  if dict_mem tyre_choice TYRE_QUALITY then dict_get TYRE_QUALITY tyre_choice
  else dict_get TYRE_QUALITY "2".

(** Step 4: [abs_active = (abs_choice == "y")]. *)
Definition select_abs (abs_choice : string) : bool := String.eqb abs_choice "y".



Definition car_keys : list string := map fst CAR_DATABASE.

(** Step 1, for a choice other than ["O"]: [idx] is [int(user_car_choice)],
    [None] when [int] raises.  An index out of [1 .. len(car_keys)], like
    any exception in the [try], selects the Toyota Corolla. *)
Definition select_car (idx : option Z) : option (string * (R * R * R)) :=
  let default :=
    match dict_get CAR_DATABASE "Toyota Corolla" with
    | Some e => Some ("Toyota Corolla", e)
    | None => None
    end in
  match idx with
  | None => default
  | Some i =>
      if orb (i <? 1)%Z (i >? Z.of_nat (List.length car_keys))%Z then default
      else
        match nth_error car_keys (Z.to_nat (i - 1)) with
        | Some chosen_car =>
            match dict_get CAR_DATABASE chosen_car with
            | Some e => Some (chosen_car, e)
            | None => default
            end
        | None => default
        end
  end.




Local Close Scope string_scope.





(** ** The quantities of the specification *)

(** Grade angle [alpha = atan(|slopePercent| / 100)]. *)
Definition gradeAngle (slopePercent : R) : R := atan (Rabs slopePercent / 100).

(** [slopeAcceleration = -g sin(alpha)] uphill, [+g sin(alpha)] downhill. *)
Definition slopeAcceleration (slopePercent : R) : R :=
  if Rge_dec slopePercent 0 then - (G * sin (gradeAngle slopePercent))
  else G * sin (gradeAngle slopePercent).

(** [effectiveAcceleration = -mu g cos(alpha) + slopeAcceleration]. *)
Definition effectiveAcceleration (mu slopePercent : R) : R :=
  - (mu * G * cos (gradeAngle slopePercent)) + slopeAcceleration slopePercent.

(** [dragAcceleration = 0.5 airDensity Cd frontalArea v^2 / mass]. *)
Definition dragAcceleration (cd frontalArea mass v : R) : R :=
  0.5 * AIR_DENSITY * cd * frontalArea * (v * v) / mass.

(** ** Trigonometry of the grade angle *)

Lemma gradeAngle_flat : gradeAngle 0 = 0.
Proof.
  unfold gradeAngle. rewrite Rabs_R0.
  replace (0 / 100) with 0 by lra. apply atan_0.
Qed.

Lemma cos_atan_pos (x : R) : 0 < cos (atan x).
Proof.
  apply cos_gt_0; pose proof (atan_bound x); lra.
Qed.

Lemma cos_atan_le_1 (x : R) : cos (atan x) <= 1.
Proof. pose proof (COS_bound (atan x)); lra. Qed.

Lemma sin_atan_cos (x : R) : sin (atan x) = x * cos (atan x).
Proof.
  pose proof (atan_right_inv x) as Ht. unfold tan in Ht.
  pose proof (cos_atan_pos x) as Hc.
  rewrite <- Ht at 2. field. lra.
Qed.

Lemma sin_atan_nonneg (x : R) : 0 <= x -> 0 <= sin (atan x).
Proof.
  intros Hx. rewrite sin_atan_cos.
  pose proof (cos_atan_pos x). nra.
Qed.

Lemma grade_nonneg (slope : R) : 0 <= Rabs slope / 100.
Proof. pose proof (Rabs_pos slope). lra. Qed.

(** The effective acceleration has the sign of [-mu - grade] uphill and of
    [grade - mu] downhill, where [grade = |slope| / 100]. *)
Lemma effectiveAcceleration_factor (mu slope : R) :
  effectiveAcceleration mu slope =
  G * cos (gradeAngle slope) *
  ((if Rge_dec slope 0 then - (Rabs slope / 100) else Rabs slope / 100) - mu).
Proof.
  unfold effectiveAcceleration, slopeAcceleration, gradeAngle.
  rewrite sin_atan_cos. destruct (Rge_dec slope 0); ring.
Qed.

Lemma effectiveAcceleration_uphill (mu slope : R) :
  0 <= mu -> 0 <= slope -> effectiveAcceleration mu slope <= 0.
Proof.
  intros Hmu Hs. rewrite effectiveAcceleration_factor.
  destruct (Rge_dec slope 0) as [_ | Hn]; [| lra].
  pose proof (cos_atan_pos (Rabs slope / 100)) as Hc.
  pose proof (grade_nonneg slope) as Hg.
  unfold gradeAngle, G. nra.
Qed.

Lemma effectiveAcceleration_flat (mu : R) : effectiveAcceleration mu 0 = - (mu * G).
Proof.
  unfold effectiveAcceleration, slopeAcceleration.
  rewrite gradeAngle_flat, sin_0, cos_0.
  destruct (Rge_dec 0 0); lra.
Qed.

(** The closed-form model's [a_eff] is the specification's
    [effectiveAcceleration]; the test on it is [a_eff <= 0]. *)
Lemma stopping_distance_simple_friction_eq (speed_kmh mu slope_percent reaction_time : R) :
  stopping_distance_simple_friction speed_kmh mu slope_percent reaction_time =
  let speed_ms := convert_kmh_to_ms speed_kmh in
  let a_eff := effectiveAcceleration mu slope_percent in
  if Rle_dec a_eff 0 then
    (Infinite, Infinite, Finite (speed_ms * reaction_time))
  else
    (Finite (speed_ms * reaction_time + speed_ms ^ 2 / (2 * a_eff)),
     Finite (speed_ms ^ 2 / (2 * a_eff)),
     Finite (speed_ms * reaction_time)).
Proof.
  unfold stopping_distance_simple_friction, effectiveAcceleration,
    slopeAcceleration, gradeAngle.
  cbv zeta.
  set (al := atan (Rabs slope_percent / 100)).
  assert (E : - mu * G * cos al +
              (if (if Rge_dec slope_percent 0 then true else false)
               then - G * sin al else G * sin al) =
              - (mu * G * cos al) +
              (if Rge_dec slope_percent 0 then - (G * sin al) else G * sin al)).
  { destruct (Rge_dec slope_percent 0); ring. }
  rewrite E. reflexivity.
Qed.

(** ** Friction combiner *)

(** C8. For every weather friction, tyre factor and ABS flag,
    [calc_final_friction] returns
    [max(weatherMu * tyreFactor + (0.05 if absActive else 0), 0.01)]; the
    result is at least 0.01, hence strictly positive.  The function is total:
    it has a value on every input. *)
Theorem calc_final_friction_spec (weather_mu tyre_factor : R) (abs_active : bool) :
  calc_final_friction weather_mu tyre_factor abs_active =
    Rmax (weather_mu * tyre_factor + (if abs_active then 0.05 else 0)) 0.01
  /\ 0.01 <= calc_final_friction weather_mu tyre_factor abs_active
  /\ 0 < calc_final_friction weather_mu tyre_factor abs_active.
Proof.
  assert (E : calc_final_friction weather_mu tyre_factor abs_active =
              Rmax (weather_mu * tyre_factor + (if abs_active then 0.05 else 0)) 0.01).
  { unfold calc_final_friction, py_max, Rmax. cbv zeta.
    destruct abs_active.
    - destruct (Rgt_dec 0.01 (weather_mu * tyre_factor + 0.05));
        destruct (Rle_dec (weather_mu * tyre_factor + 0.05) 0.01); lra.
    - replace (weather_mu * tyre_factor + 0) with (weather_mu * tyre_factor) by ring.
      destruct (Rgt_dec 0.01 (weather_mu * tyre_factor));
        destruct (Rle_dec (weather_mu * tyre_factor) 0.01); lra. }
  rewrite E.
  pose proof (Rmax_r (weather_mu * tyre_factor + (if abs_active then 0.05 else 0)) 0.01).
  repeat split; lra.
Qed.

(** ** Closed-form model *)

(** C1, evaluated on the code.  On a flat road with [mu = 0.7] at 60 km/h the
    effective acceleration is negative (the car decelerates), yet the code
    returns infinite braking and total distances; on an 8 % downhill with
    [mu = 0.05] the effective acceleration is positive (friction cannot hold
    the car), yet the code returns a finite braking distance.  The test
    [a_eff <= 0] is the reverse of the one the model describes. *)
Theorem closed_form_unstoppable_test_reversed :
  (effectiveAcceleration 0.7 0 < 0 /\
   stopping_distance_simple_friction 60 0.7 0 1 =
     (Infinite, Infinite, Finite (50 / 3)))
  /\
  (0 < effectiveAcceleration 0.05 (-8) /\
   exists d : R,
     stopping_distance_simple_friction 36 0.05 (-8) 1 =
       (Finite (10 + d), Finite d, Finite 10)).
Proof.
  split.
  - split.
    + rewrite effectiveAcceleration_flat. unfold G. lra.
    + rewrite stopping_distance_simple_friction_eq. cbv zeta.
      rewrite effectiveAcceleration_flat.
      destruct (Rle_dec (- (0.7 * G)) 0) as [_ | Hn].
      * unfold convert_kmh_to_ms. do 2 f_equal. lra.
      * exfalso. apply Hn. unfold G. lra.
  - assert (Hpos : 0 < effectiveAcceleration 0.05 (-8)).
    { rewrite effectiveAcceleration_factor.
      destruct (Rge_dec (-8) 0) as [Hge | _]; [lra |].
      replace (Rabs (-8)) with 8
        by (rewrite Rabs_left; lra).
      pose proof (cos_atan_pos (8 / 100)) as Hc.
      unfold gradeAngle.
      replace (Rabs (-8)) with 8 by (rewrite Rabs_left; lra).
      unfold G. nra. }
    split; [exact Hpos |].
    exists (10 ^ 2 / (2 * effectiveAcceleration 0.05 (-8))).
    rewrite stopping_distance_simple_friction_eq. cbv zeta.
    destruct (Rle_dec (effectiveAcceleration 0.05 (-8)) 0) as [Hle | _]; [lra |].
    replace (convert_kmh_to_ms 36) with 10 by (unfold convert_kmh_to_ms; lra).
    replace (10 * 1) with 10 by lra. reflexivity.
Qed.

(** C2, evaluated on the code.  On a flat road ([slope_percent = 0]) with
    [mu > 0] the closed-form model returns infinite braking and total
    distances whatever the speed, instead of [speedMs^2 / (2 mu g)]; only the
    reaction distance [speedMs * reactionTime] is finite. *)
Theorem closed_form_flat_is_infinite (speed_kmh mu reaction_time : R) :
  0 < mu ->
  stopping_distance_simple_friction speed_kmh mu 0 reaction_time =
    (Infinite, Infinite, Finite (convert_kmh_to_ms speed_kmh * reaction_time)).
Proof.
  intros Hmu.
  rewrite stopping_distance_simple_friction_eq. cbv zeta.
  rewrite effectiveAcceleration_flat.
  destruct (Rle_dec (- (mu * G)) 0) as [_ | Hn]; [reflexivity |].
  exfalso. apply Hn. unfold G. nra.
Qed.

(** The concrete scenario of C2: 60 km/h, [mu = 0.7], flat, 1 s reaction. *)
Lemma closed_form_flat_is_infinite_witness :
  0 < 0.7 /\
  stopping_distance_simple_friction 60 0.7 0 1 =
    (Infinite, Infinite, Finite (convert_kmh_to_ms 60 * 1)).
Proof.
  split; [lra | apply (closed_form_flat_is_infinite 60 0.7 1); lra].
Defined.

(** ** Numeric model: the loop body *)

Section NumericFacts.

Variables (mu mass_kg cd frontal_area dt alpha : R) (is_uphill : bool).

Local Abbreviation body := (numeric_body mu mass_kg cd frontal_area dt alpha is_uphill).
Local Abbreviation loop := (numeric_loop mu mass_kg cd frontal_area dt alpha is_uphill).
Local Abbreviation v_next := (v_next mu mass_kg cd frontal_area dt alpha is_uphill).

Lemma numeric_body_eq (s : nstate) :
  mass_kg <> 0 ->
  body s =
    if Rlt_dec (v_next (nv s)) 0 then
      Break (mk_nstate (nv s) (nx s + 0.5 * (nv s + 0) * dt) (nt s))
    else if Rle_dec (v_next (nv s)) 0.01 then
      Break (mk_nstate 0 (nx s + 0.5 * (nv s + v_next (nv s)) * dt) (nt s + dt))
    else
      Continue (mk_nstate (v_next (nv s))
                  (nx s + 0.5 * (nv s + v_next (nv s)) * dt) (nt s + dt)).
Proof.
  intros Hm. unfold numeric_body, v_next, net_acc.
  destruct (Req_dec_T mass_kg 0) as [E | _]; [contradiction | reflexivity].
Qed.

Lemma numeric_body_raise (s : nstate) : mass_kg = 0 -> body s = Raise.
Proof.
  intros Hm. unfold numeric_body.
  destruct (Req_dec_T mass_kg 0) as [_ | N]; [reflexivity | contradiction].
Qed.

Lemma numeric_body_no_raise (s : nstate) : mass_kg <> 0 -> body s <> Raise.
Proof.
  intros Hm. rewrite numeric_body_eq by assumption.
  destruct (Rlt_dec (v_next (nv s)) 0); [discriminate |].
  destruct (Rle_dec (v_next (nv s)) 0.01); discriminate.
Qed.

(** Every ending iteration: its effect on [v], [x] and [t]. *)
Lemma numeric_body_inv (s s' : nstate) :
  body s = Continue s' \/ body s = Break s' ->
  (mass_kg <> 0) /\
  ((v_next (nv s) < 0 /\ body s = Break s' /\
    nv s' = nv s /\ nx s' = nx s + 0.5 * (nv s + 0) * dt /\ nt s' = nt s)
   \/
   (0 <= v_next (nv s) <= 0.01 /\ body s = Break s' /\
    nv s' = 0 /\ nx s' = nx s + 0.5 * (nv s + v_next (nv s)) * dt /\
    nt s' = nt s + dt)
   \/
   (0.01 < v_next (nv s) /\ body s = Continue s' /\
    nv s' = v_next (nv s) /\
    nx s' = nx s + 0.5 * (nv s + v_next (nv s)) * dt /\
    nt s' = nt s + dt)).
Proof.
  intros H.
  destruct (Req_dec_T mass_kg 0) as [E | Hm].
  { rewrite (numeric_body_raise s E) in H. destruct H; discriminate. }
  split; [exact Hm |].
  rewrite (numeric_body_eq s Hm) in *.
  destruct (Rlt_dec (v_next (nv s)) 0) as [Hneg | Hnn].
  - left. destruct H as [H | H]; [discriminate |].
    injection H as <-. simpl. repeat split; auto.
  - destruct (Rle_dec (v_next (nv s)) 0.01) as [Hle | Hgt].
    + right; left. destruct H as [H | H]; [discriminate |].
      injection H as <-. simpl. repeat split; auto; lra.
    + right; right. destruct H as [H | H]; [| discriminate].
      injection H as <-. simpl. repeat split; auto; lra.
Qed.

(** With [dt >= 0] and [v >= 0], an iteration keeps [v >= 0] and increases
    neither [x] nor [t] by a negative amount; [x] grows by at least
    [0.5 v dt]. *)
Lemma numeric_body_nonneg (s s' : nstate) :
  0 <= dt -> 0 <= nv s ->
  body s = Continue s' \/ body s = Break s' ->
  0 <= nv s' /\ nx s + 0.5 * nv s * dt <= nx s' /\ nt s <= nt s'.
Proof.
  intros Hdt Hv H.
  destruct (numeric_body_inv s s' H) as [_ [C | [C | C]]];
    destruct C as (Hc & _ & Ev & Ex & Et); rewrite Ev, Ex, Et;
    repeat split; try lra; nra.
Qed.

(** *** The loop *)

Lemma numeric_loop_done (fuel : nat) (s : nstate) :
  ~ nt s < max_time -> loop fuel s = Some (Returns s).
Proof.
  intros H. destruct fuel; simpl;
    destruct (Rlt_dec (nt s) max_time); try contradiction; reflexivity.
Qed.

Lemma numeric_loop_step (fuel : nat) (s : nstate) :
  nt s < max_time ->
  loop (S fuel) s =
    match body s with
    | Continue s' => loop fuel s'
    | Break s' => Some (Returns s')
    | Raise => Some ZeroDivisionError
    end.
Proof.
  intros H. simpl.
  destruct (Rlt_dec (nt s) max_time); [reflexivity | contradiction].
Qed.

Lemma numeric_loop_out_of_fuel (s : nstate) :
  nt s < max_time -> loop O s = None.
Proof.
  intros H. simpl.
  destruct (Rlt_dec (nt s) max_time); [reflexivity | contradiction].
Qed.

(** Enough fuel: the loop ends within [n] iterations once [n dt] covers
    what is left of the 300 s. *)
Lemma numeric_loop_fuel_enough (n : nat) :
  forall s : nstate,
    max_time - nt s <= INR n * dt ->
    exists r, loop n s = Some r.
Proof.
  induction n as [| n IH]; intros s Hn.
  - exists (Returns s). apply numeric_loop_done. simpl in Hn. lra.
  - destruct (Rlt_dec (nt s) max_time) as [Hlt | Hge].
    + rewrite numeric_loop_step by assumption.
      destruct (body s) as [s' | s' |] eqn:Eb.
      * apply IH.
        destruct (numeric_body_inv s s' (or_introl Eb)) as [_ [C | [C | C]]];
          destruct C as (_ & Eb' & _ & _ & Et);
          try (rewrite Eb in Eb'; discriminate).
        rewrite Et. rewrite S_INR in Hn. lra.
      * eexists; reflexivity.
      * eexists; reflexivity.
    + exists (Returns s). apply numeric_loop_done. assumption.
Qed.

Lemma numeric_loop_no_raise (n : nat) :
  forall s : nstate, mass_kg <> 0 -> loop n s <> Some ZeroDivisionError.
Proof.
  induction n as [| n IH]; intros s Hm.
  - simpl. destruct (Rlt_dec (nt s) max_time); discriminate.
  - simpl. destruct (Rlt_dec (nt s) max_time); [| discriminate].
    pose proof (numeric_body_no_raise s Hm) as Hb.
    destruct (body s); [apply IH; assumption | discriminate | contradiction].
Qed.

(** More fuel does not change a result. *)
Lemma numeric_loop_more_fuel (n : nat) :
  forall (m : nat) (s : nstate) (r : result nstate),
    (n <= m)%nat -> loop n s = Some r -> loop m s = Some r.
Proof.
  induction n as [| n IH]; intros m s r Hle H.
  - simpl in H. destruct (Rlt_dec (nt s) max_time) as [Hlt | Hge];
      [discriminate |].
    rewrite numeric_loop_done by assumption. assumption.
  - destruct m as [| m]; [lia |].
    simpl in *. destruct (Rlt_dec (nt s) max_time); [| assumption].
    destruct (body s); try assumption.
    apply IH; [lia | assumption].
Qed.

(** The result of the loop does not depend on the fuel. *)
Lemma numeric_loop_deterministic (n m : nat) (s : nstate) (r1 r2 : result nstate) :
  loop n s = Some r1 -> loop m s = Some r2 -> r1 = r2.
Proof.
  intros H1 H2.
  apply (numeric_loop_more_fuel n (Nat.max n m)) in H1; [| lia].
  apply (numeric_loop_more_fuel m (Nat.max n m)) in H2; [| lia].
  congruence.
Qed.

(** With [dt >= 0] and [v >= 0] at the start, the loop ends with
    [v >= 0], and [x] and [t] not below where they started. *)
Lemma numeric_loop_nonneg (n : nat) :
  forall s r : nstate,
    0 <= dt -> 0 <= nv s ->
    loop n s = Some (Returns r) ->
    0 <= nv r /\ nx s <= nx r /\ nt s <= nt r.
Proof.
  induction n as [| n IH]; intros s r Hdt Hv H.
  - simpl in H. destruct (Rlt_dec (nt s) max_time); [discriminate |].
    injection H as <-. lra.
  - simpl in H. destruct (Rlt_dec (nt s) max_time).
    + destruct (body s) as [s' | s' |] eqn:Eb; [| | discriminate].
      * destruct (numeric_body_nonneg s s' Hdt Hv (or_introl Eb)) as (Hv' & Hx & Ht).
        destruct (IH s' r Hdt Hv' H) as (? & ? & ?).
        repeat split; try lra; nra.
      * injection H as <-.
        destruct (numeric_body_nonneg s s' Hdt Hv (or_intror Eb)) as (Hv' & Hx & Ht).
        repeat split; try lra; nra.
    + injection H as <-. lra.
Qed.

(** When the loop runs at least one iteration, [x] grows by at least
    [0.5 v dt]. *)
Lemma numeric_loop_first_step (n : nat) (s r : nstate) :
  0 <= dt -> 0 <= nv s -> nt s < max_time ->
  loop n s = Some (Returns r) ->
  nx s + 0.5 * nv s * dt <= nx r.
Proof.
  intros Hdt Hv Ht H. destruct n as [| n].
  - rewrite numeric_loop_out_of_fuel in H by assumption. discriminate.
  - rewrite numeric_loop_step in H by assumption.
    destruct (body s) as [s' | s' |] eqn:Eb; [| | discriminate].
    + destruct (numeric_body_nonneg s s' Hdt Hv (or_introl Eb)) as (Hv' & Hx & _).
      destruct (numeric_loop_nonneg n s' r Hdt Hv' H) as (_ & Hx' & _). lra.
    + injection H as <-.
      destruct (numeric_body_nonneg s s' Hdt Hv (or_intror Eb)) as (_ & Hx & _).
      lra.
Qed.

End NumericFacts.

(** *** The body in the terms of the specification *)

Lemma net_acc_spec (mu mass_kg cd frontal_area slope_percent v : R) :
  net_acc mu mass_kg cd frontal_area (atan (Rabs slope_percent / 100))
    (if Rge_dec slope_percent 0 then true else false) v =
  effectiveAcceleration mu slope_percent
  - dragAcceleration cd frontal_area mass_kg v.
Proof.
  unfold net_acc, effectiveAcceleration, slopeAcceleration, dragAcceleration,
    gradeAngle.
  destruct (Rge_dec slope_percent 0); unfold Rdiv; ring.
Qed.

Lemma net_acc_flat (mu mass_kg cd frontal_area v : R) :
  net_acc mu mass_kg cd frontal_area (atan (Rabs 0 / 100))
    (if Rge_dec 0 0 then true else false) v =
  - (mu * G) - 0.5 * AIR_DENSITY * cd * frontal_area * (v * v) / mass_kg.
Proof.
  rewrite net_acc_spec, effectiveAcceleration_flat. reflexivity.
Qed.

(** The number of iterations that covers the 300 s cap at step [dt]. *)
Lemma cap_iterations (cap dt : R) :
  0 <= cap -> 0 < dt ->
  let n := Z.to_nat (up (cap / dt)) in
  cap < INR n * dt /\ INR n <= cap / dt + 1.
Proof.
  intros Hcap Hdt n.
  destruct (archimed (cap / dt)) as [Hup1 Hup2].
  assert (Hq : 0 <= cap / dt).
  { unfold Rdiv. apply Rmult_le_pos; [assumption |].
    left. apply Rinv_0_lt_compat. assumption. }
  assert (Hz : (0 <= up (cap / dt))%Z).
  { apply le_IZR. lra. }
  assert (En : INR n = IZR (up (cap / dt))).
  { unfold n. rewrite INR_IZR_INZ, Z2Nat.id by assumption. reflexivity. }
  rewrite En. split; [| lra].
  assert (E : cap = cap / dt * dt) by (field; lra).
  rewrite E at 1. apply Rmult_lt_compat_r; lra.
Qed.

(** The numeric model ends within [300 / dt + 1] iterations. *)
Lemma numeric_terminates (speed_kmh mu mass_kg cd frontal_area slope_percent reaction_time dt : R) :
  0 < dt ->
  exists n : nat,
    INR n <= max_time / dt + 1 /\
    exists r,
      stopping_distance_numeric_drag n speed_kmh mu mass_kg cd frontal_area
        slope_percent reaction_time dt = Some r.
Proof.
  intros Hdt.
  assert (Hcap : 0 <= max_time) by (unfold max_time; lra).
  destruct (cap_iterations max_time dt Hcap Hdt) as [H1 H2].
  set (n := Z.to_nat (up (max_time / dt))) in *.
  exists n. split; [exact H2 |].
  unfold stopping_distance_numeric_drag. cbv zeta.
  destruct (numeric_loop_fuel_enough mu mass_kg cd frontal_area dt
              (atan (Rabs slope_percent / 100))
              (if Rge_dec slope_percent 0 then true else false) n
              (mk_nstate (convert_kmh_to_ms speed_kmh) 0 0)) as [r Hr].
  { simpl. lra. }
  rewrite Hr. destruct r; eexists; reflexivity.
Qed.

Lemma numeric_returns (speed_kmh mu mass_kg cd frontal_area slope_percent reaction_time dt : R) :
  0 < dt -> mass_kg <> 0 ->
  exists (n : nat) (r : numeric_result),
    stopping_distance_numeric_drag n speed_kmh mu mass_kg cd frontal_area
      slope_percent reaction_time dt = Some (Returns r).
Proof.
  intros Hdt Hm.
  destruct (numeric_terminates speed_kmh mu mass_kg cd frontal_area
              slope_percent reaction_time dt Hdt) as (n & _ & r & Hr).
  exists n. destruct r as [r |]; [exists r; exact Hr |].
  exfalso. unfold stopping_distance_numeric_drag in Hr. cbv zeta in Hr.
  destruct (numeric_loop mu mass_kg cd frontal_area dt
              (atan (Rabs slope_percent / 100))
              (if Rge_dec slope_percent 0 then true else false) n
              (mk_nstate (convert_kmh_to_ms speed_kmh) 0 0)) as [[s |] |] eqn:E;
    try discriminate.
  exact (numeric_loop_no_raise _ _ _ _ _ _ _ n _ Hm E).
Qed.

Lemma stopping_distance_numeric_drag_deterministic (fuel1 fuel2 : nat)
    (speed_kmh mu mass_kg cd frontal_area slope_percent reaction_time dt : R)
    (r1 r2 : result numeric_result) :
  stopping_distance_numeric_drag fuel1 speed_kmh mu mass_kg cd frontal_area
    slope_percent reaction_time dt = Some r1 ->
  stopping_distance_numeric_drag fuel2 speed_kmh mu mass_kg cd frontal_area
    slope_percent reaction_time dt = Some r2 ->
  r1 = r2.
Proof.
  unfold stopping_distance_numeric_drag. cbv zeta. intros H1 H2.
  destruct (numeric_loop mu mass_kg cd frontal_area dt
              (atan (Rabs slope_percent / 100))
              (if Rge_dec slope_percent 0 then true else false) fuel1
              (mk_nstate (convert_kmh_to_ms speed_kmh) 0 0)) as [e1 |] eqn:E1;
    [| discriminate].
  destruct (numeric_loop mu mass_kg cd frontal_area dt
              (atan (Rabs slope_percent / 100))
              (if Rge_dec slope_percent 0 then true else false) fuel2
              (mk_nstate (convert_kmh_to_ms speed_kmh) 0 0)) as [e2 |] eqn:E2;
    [| discriminate].
  pose proof (numeric_loop_deterministic _ _ _ _ _ _ _ _ _ _ _ _ E1 E2) as <-.
  destruct e1; congruence.
Qed.

(** What the numeric model returns, from the state in which its loop ends. *)
Lemma numeric_result_inv (fuel : nat)
    (speed_kmh mu mass_kg cd frontal_area slope_percent reaction_time dt : R)
    (r : numeric_result) :
  stopping_distance_numeric_drag fuel speed_kmh mu mass_kg cd frontal_area
    slope_percent reaction_time dt = Some (Returns r) ->
  exists s : nstate,
    numeric_loop mu mass_kg cd frontal_area dt (atan (Rabs slope_percent / 100))
      (if Rge_dec slope_percent 0 then true else false) fuel
      (mk_nstate (convert_kmh_to_ms speed_kmh) 0 0) = Some (Returns s) /\
    reaction_dist r = convert_kmh_to_ms speed_kmh * reaction_time /\
    braking_dist r = nx s /\
    total_dist r = convert_kmh_to_ms speed_kmh * reaction_time + nx s /\
    total_time r = reaction_time + nt s /\
    final_v r = nv s.
Proof.
  unfold stopping_distance_numeric_drag. cbv zeta. intros H.
  destruct (numeric_loop mu mass_kg cd frontal_area dt
              (atan (Rabs slope_percent / 100))
              (if Rge_dec slope_percent 0 then true else false) fuel
              (mk_nstate (convert_kmh_to_ms speed_kmh) 0 0)) as [[s |] |];
    try discriminate.
  injection H as <-. exists s. simpl. repeat split; reflexivity.
Qed.

(** C4. In every iteration of the braking loop that ends, the acceleration
    is [a = -mu g cos(alpha) + slopeAcceleration - dragAcceleration], the new
    velocity is [vNext = v + a dt], and when [vNext >= 0] the distance grows
    by the trapezoidal average [0.5 (v + vNext) dt] and the time by [dt]
    (the velocity kept is [vNext], or 0 once [vNext <= 0.01]). *)
Theorem numeric_iteration_spec
    (mu mass_kg cd frontal_area slope_percent dt : R) (s s' : nstate) :
  let alpha := atan (Rabs slope_percent / 100) in
  let is_uphill := if Rge_dec slope_percent 0 then true else false in
  let body := numeric_body mu mass_kg cd frontal_area dt alpha is_uphill in
  let a := effectiveAcceleration mu slope_percent
           - dragAcceleration cd frontal_area mass_kg (nv s) in
  let vNext := nv s + a * dt in
  body s = Continue s' \/ body s = Break s' ->
  net_acc mu mass_kg cd frontal_area alpha is_uphill (nv s) = a /\
  v_next mu mass_kg cd frontal_area dt alpha is_uphill (nv s) = vNext /\
  (0 <= vNext ->
   nx s' - nx s = 0.5 * (nv s + vNext) * dt /\
   nt s' = nt s + dt /\
   (0.01 < vNext -> body s = Continue s' /\ nv s' = vNext) /\
   (vNext <= 0.01 -> body s = Break s' /\ nv s' = 0)).
Proof.
  intros alpha is_uphill body a vNext H.
  assert (Ea : net_acc mu mass_kg cd frontal_area alpha is_uphill (nv s) = a).
  { apply net_acc_spec. }
  assert (Ev : v_next mu mass_kg cd frontal_area dt alpha is_uphill (nv s) = vNext).
  { unfold v_next. rewrite Ea. reflexivity. }
  split; [exact Ea |]. split; [exact Ev |].
  intros Hnn.
  destruct (numeric_body_inv _ _ _ _ _ _ _ s s' H) as [_ [C | [C | C]]];
    fold alpha is_uphill in C; rewrite Ev in C;
    destruct C as (Hc & Eb & Hv & Hx & Ht).
  - lra.
  - repeat split; try lra; try assumption.
  - repeat split; try lra; try assumption.
Qed.

(** An iteration from 10 m/s on a flat road, [mu = 0.7], at [dt = 0.01]. *)
Lemma numeric_iteration_spec_witness :
  let vNext := 10 + (effectiveAcceleration 0.7 0
                     - dragAcceleration 0.29 2.2 1300 10) * 0.01 in
  let s0 := mk_nstate 10 0 0 in
  let s1 := mk_nstate vNext (0.5 * (10 + vNext) * 0.01) 0.01 in
  numeric_body 0.7 1300 0.29 2.2 0.01 (atan (Rabs 0 / 100))
    (if Rge_dec 0 0 then true else false) s0 = Continue s1 /\
  0 <= vNext /\
  nx s1 - nx s0 = 0.5 * (nv s0 + vNext) * 0.01 /\
  nt s1 = nt s0 + 0.01.
Proof.
  intros vNext s0 s1.
  assert (Hv : 0.01 < vNext).
  { unfold vNext, dragAcceleration, AIR_DENSITY.
    rewrite effectiveAcceleration_flat. unfold G. lra. }
  assert (Hb : numeric_body 0.7 1300 0.29 2.2 0.01 (atan (Rabs 0 / 100))
                 (if Rge_dec 0 0 then true else false) s0 = Continue s1).
  { rewrite numeric_body_eq by lra.
    assert (Ev : v_next 0.7 1300 0.29 2.2 0.01 (atan (Rabs 0 / 100))
                   (if Rge_dec 0 0 then true else false) 10 = vNext).
    { unfold v_next. rewrite net_acc_spec. reflexivity. }
    simpl nv. simpl nx. simpl nt. rewrite Ev.
    destruct (Rlt_dec vNext 0); [lra |].
    destruct (Rle_dec vNext 0.01); [lra |].
    f_equal. unfold s1. f_equal; lra. }
  assert (Hnn : 0 <= vNext) by lra.
  pose proof (numeric_iteration_spec 0.7 1300 0.29 2.2 0 0.01 s0 s1
                (or_introl Hb)) as (_ & _ & Hstep).
  destruct (Hstep Hnn) as (Hx & Ht & _).
  repeat split; assumption.
Defined.

(** C5, evaluated on the code.  From 0.18 km/h (0.05 m/s) on a flat road with
    [mu = 0.7] and the default step 0.01 s, the first iteration finds
    [v_new < 0]: the loop ends at once, at braking time 0 (the total time is
    the reaction time, 1 s), far from the 300 s cap.  The velocity returned is
    the velocity before the step, 0.05 m/s, and not 0: the branch sets
    [v_new = 0] and returns [v]. *)
Theorem numeric_clamp_returns_old_velocity :
  stopping_distance_numeric_drag 1 0.18 0.7 1300 0.29 2.2 0 1 0.01 =
    Some (Returns (mk_numeric_result (0.05 + 0.00025) 0.05 0.00025 1 0.05)).
Proof.
  unfold stopping_distance_numeric_drag. cbv zeta.
  rewrite numeric_loop_step by (simpl; unfold max_time; lra).
  rewrite numeric_body_eq by lra.
  simpl nv. simpl nx. simpl nt.
  assert (Hneg : v_next 0.7 1300 0.29 2.2 0.01 (atan (Rabs 0 / 100))
                   (if Rge_dec 0 0 then true else false)
                   (convert_kmh_to_ms 0.18) < 0).
  { unfold v_next. rewrite net_acc_flat.
    unfold convert_kmh_to_ms, G, AIR_DENSITY. lra. }
  destruct (Rlt_dec _ 0) as [_ | Hn]; [| contradiction].
  simpl. do 2 f_equal. unfold convert_kmh_to_ms. f_equal; lra.
Qed.

(** C9. For every input, the reaction distance that the closed-form model
    returns and the one that the numeric model returns are
    [speedMs * reactionTime], whatever the friction, slope, mass, drag
    coefficient and frontal area; the numeric model does return when
    [dt > 0] and the mass is not zero. *)
Theorem reaction_distance_both_models
    (speed_kmh mu mass_kg cd frontal_area slope_percent reaction_time dt : R) :
  snd (stopping_distance_simple_friction speed_kmh mu slope_percent reaction_time)
    = Finite (convert_kmh_to_ms speed_kmh * reaction_time)
  /\
  (forall (fuel : nat) (r : numeric_result),
     stopping_distance_numeric_drag fuel speed_kmh mu mass_kg cd frontal_area
       slope_percent reaction_time dt = Some (Returns r) ->
     reaction_dist r = convert_kmh_to_ms speed_kmh * reaction_time)
  /\
  (0 < dt -> mass_kg <> 0 ->
   exists (fuel : nat) (r : numeric_result),
     stopping_distance_numeric_drag fuel speed_kmh mu mass_kg cd frontal_area
       slope_percent reaction_time dt = Some (Returns r) /\
     reaction_dist r = convert_kmh_to_ms speed_kmh * reaction_time).
Proof.
  split; [| split].
  - rewrite stopping_distance_simple_friction_eq. cbv zeta.
    destruct (Rle_dec (effectiveAcceleration mu slope_percent) 0); reflexivity.
  - intros fuel r H.
    destruct (numeric_result_inv _ _ _ _ _ _ _ _ _ _ H) as (s & _ & E & _).
    exact E.
  - intros Hdt Hm.
    destruct (numeric_returns speed_kmh mu mass_kg cd frontal_area
                slope_percent reaction_time dt Hdt Hm) as (n & r & H).
    exists n, r. split; [exact H |].
    destruct (numeric_result_inv _ _ _ _ _ _ _ _ _ _ H) as (s & _ & E & _).
    exact E.
Qed.

(** *** States at the start of an iteration *)

Section NumericInvariant.

Variables (mu mass_kg cd frontal_area dt alpha : R) (is_uphill : bool).

Local Abbreviation body := (numeric_body mu mass_kg cd frontal_area dt alpha is_uphill).

Lemma numeric_iterates_nonneg (s0 s : nstate) :
  0 <= dt -> 0 <= nv s0 ->
  numeric_iterates body s0 s ->
  0 <= nv s /\ nx s0 <= nx s /\ nt s0 <= nt s.
Proof.
  intros Hdt Hv0 Hit. induction Hit as [s | s s' s'' Ht Hb Hit IH].
  - lra.
  - destruct (numeric_body_nonneg _ _ _ _ _ _ _ s s' Hdt Hv0 (or_introl Hb))
      as (Hv' & Hx & Htt).
    destruct (IH Hv') as (? & ? & ?).
    repeat split; try lra; nra.
Qed.

End NumericInvariant.

(** C10, with the time step taken non-negative.  For every input with
    [speedKmh >= 0], [reactionTime >= 0] and [dt >= 0]: [v >= 0] at the start
    of every iteration of the braking loop, every iteration adds a
    non-negative distance, and the final velocity, braking distance,
    reaction distance, total distance and total time returned are all
    non-negative (and they are returned when [dt > 0] and the mass is not
    zero). *)
Theorem numeric_nonnegative
    (speed_kmh mu mass_kg cd frontal_area slope_percent reaction_time dt : R) :
  0 <= speed_kmh -> 0 <= reaction_time -> 0 <= dt ->
  let body := numeric_body mu mass_kg cd frontal_area dt
                (atan (Rabs slope_percent / 100))
                (if Rge_dec slope_percent 0 then true else false) in
  (forall s : nstate,
     numeric_iterates body (mk_nstate (convert_kmh_to_ms speed_kmh) 0 0) s ->
     0 <= nv s /\
     forall s' : nstate,
       body s = Continue s' \/ body s = Break s' -> 0 <= nx s' - nx s)
  /\
  (forall (fuel : nat) (r : numeric_result),
     stopping_distance_numeric_drag fuel speed_kmh mu mass_kg cd frontal_area
       slope_percent reaction_time dt = Some (Returns r) ->
     0 <= final_v r /\ 0 <= braking_dist r /\ 0 <= reaction_dist r /\
     0 <= total_dist r /\ 0 <= total_time r)
  /\
  (0 < dt -> mass_kg <> 0 ->
   exists (fuel : nat) (r : numeric_result),
     stopping_distance_numeric_drag fuel speed_kmh mu mass_kg cd frontal_area
       slope_percent reaction_time dt = Some (Returns r)).
Proof.
  intros Hs Hrt Hdt body.
  assert (Hms : 0 <= convert_kmh_to_ms speed_kmh).
  { unfold convert_kmh_to_ms. lra. }
  split; [| split].
  - intros s Hit.
    destruct (numeric_iterates_nonneg _ _ _ _ _ _ _
                (mk_nstate (convert_kmh_to_ms speed_kmh) 0 0) s Hdt Hms Hit)
      as (Hv & _ & _).
    split; [exact Hv |].
    intros s' Hb.
    destruct (numeric_body_nonneg _ _ _ _ _ _ _ s s' Hdt Hv Hb) as (_ & Hx & _).
    nra.
  - intros fuel r H.
    destruct (numeric_result_inv _ _ _ _ _ _ _ _ _ _ H)
      as (s & Hl & Er & Eb & Et & Ett & Ev).
    destruct (numeric_loop_nonneg _ _ _ _ _ _ _ fuel
                (mk_nstate (convert_kmh_to_ms speed_kmh) 0 0) s Hdt Hms Hl)
      as (Hv & Hx & Ht).
    simpl in Hx, Ht. rewrite Er, Eb, Et, Ett, Ev.
    repeat split; try lra; nra.
  - intros Hpos Hm. apply numeric_returns; assumption.
Qed.

(** 60 km/h, [mu = 0.7], a 1300 kg car, flat road, 1 s reaction time, the
    default step. *)
Lemma numeric_nonnegative_witness :
  exists (fuel : nat) (r : numeric_result),
    stopping_distance_numeric_drag fuel 60 0.7 1300 0.29 2.2 0 1 0.01
      = Some (Returns r) /\
    0 <= final_v r /\ 0 <= braking_dist r /\ 0 <= reaction_dist r /\
    0 <= total_dist r /\ 0 <= total_time r.
Proof.
  assert (H1 : 0 <= 60) by lra.
  assert (H2 : 0 <= 1) by lra.
  assert (H3 : 0 <= 0.01) by lra.
  destruct (numeric_nonnegative 60 0.7 1300 0.29 2.2 0 1 0.01 H1 H2 H3)
    as (_ & Hres & Hex).
  destruct Hex as (fuel & r & Hr); [lra | lra |].
  exists fuel, r. split; [exact Hr |]. exact (Hres fuel r Hr).
Defined.

(** C10 as stated fails for a negative time step: from rest on a flat road
    with [mu = 0.7] and [dt = -0.001], the single iteration moves the car
    backwards in distance and in time; the braking distance, the total
    distance and the total time returned are negative. *)
Lemma numeric_negative_step_counterexample :
  exists r : numeric_result,
    stopping_distance_numeric_drag 1 0 0.7 1300 0.29 2.2 0 0 (-0.001)
      = Some (Returns r) /\
    braking_dist r < 0 /\ total_dist r < 0 /\ total_time r < 0.
Proof.
  unfold stopping_distance_numeric_drag. cbv zeta.
  rewrite numeric_loop_step by (simpl; unfold max_time; lra).
  rewrite numeric_body_eq by lra.
  simpl nv. simpl nx. simpl nt.
  assert (Ev : v_next 0.7 1300 0.29 2.2 (-0.001) (atan (Rabs 0 / 100))
                 (if Rge_dec 0 0 then true else false)
                 (convert_kmh_to_ms 0) = 0.006867).
  { unfold v_next. rewrite net_acc_flat.
    unfold convert_kmh_to_ms, G, AIR_DENSITY. lra. }
  rewrite Ev.
  destruct (Rlt_dec 0.006867 0); [lra |].
  destruct (Rle_dec 0.006867 0.01); [| lra].
  eexists. split; [reflexivity |].
  simpl. unfold convert_kmh_to_ms. lra.
Qed.

(** ** Numeric model: two runs that differ in the initial speed *)

Lemma base_acc_spec (mu slope_percent : R) :
  - mu * G * cos (atan (Rabs slope_percent / 100))
  + (if (if Rge_dec slope_percent 0 then true else false)
     then - G * sin (atan (Rabs slope_percent / 100))
     else G * sin (atan (Rabs slope_percent / 100)))
  = effectiveAcceleration mu slope_percent.
Proof.
  unfold effectiveAcceleration, slopeAcceleration, gradeAngle.
  destruct (Rge_dec slope_percent 0); ring.
Qed.

Section NumericMonotone.

Variables (mu mass_kg cd frontal_area dt alpha : R) (is_uphill : bool).
(** [vmax] bounds the velocities of both runs. *)
Variable vmax : R.

Hypothesis mass_pos : 0 < mass_kg.
Hypothesis cd_nonneg : 0 <= cd.
Hypothesis area_nonneg : 0 <= frontal_area.
Hypothesis dt_pos : 0 < dt.
(** Friction and slope together do not accelerate the car. *)
Hypothesis base_nonpos :
  - mu * G * cos alpha + (if is_uphill then - G * sin alpha else G * sin alpha) <= 0.
(** The step is small enough for [v_next] to be monotone up to [vmax]. *)
Hypothesis step_stable : AIR_DENSITY * cd * frontal_area * vmax * dt <= mass_kg.

Local Abbreviation body := (numeric_body mu mass_kg cd frontal_area dt alpha is_uphill).
Local Abbreviation loop := (numeric_loop mu mass_kg cd frontal_area dt alpha is_uphill).
Local Abbreviation vnext := (v_next mu mass_kg cd frontal_area dt alpha is_uphill).

Local Abbreviation K := (drag_factor mass_kg cd frontal_area).
Local Abbreviation base := (base_acc mu alpha is_uphill).

Lemma vnext_eq (v : R) : vnext v = v + (base - K * (v * v)) * dt.
Proof. unfold v_next, net_acc, drag_factor, base_acc, Rdiv. ring. Qed.

Lemma K_nonneg : 0 <= K.
Proof.
  unfold drag_factor, Rdiv. apply Rmult_le_pos.
  - unfold AIR_DENSITY. nra.
  - left. apply Rinv_0_lt_compat. assumption.
Qed.

Lemma K_stable : 2 * K * vmax * dt <= 1.
Proof.
  assert (EK : K * mass_kg = 0.5 * AIR_DENSITY * cd * frontal_area).
  { unfold drag_factor, Rdiv. rewrite Rmult_assoc, Rinv_l; lra. }
  assert (E : 2 * K * vmax * dt * mass_kg =
              AIR_DENSITY * cd * frontal_area * vmax * dt).
  { replace (2 * K * vmax * dt * mass_kg)
      with (2 * (K * mass_kg) * vmax * dt) by ring.
    rewrite EK. lra. }
  apply Rmult_le_reg_r with mass_kg; [assumption |].
  rewrite E. lra.
Qed.

Lemma vnext_le (v : R) : vnext v <= v.
Proof.
  rewrite vnext_eq. pose proof K_nonneg as HK.
  change (base <= 0) in base_nonpos.
  assert (0 <= K * (v * v)) by (apply Rmult_le_pos; [assumption | nra]).
  nra.
Qed.

Lemma vnext_mono (v1 v2 : R) :
  0 <= v1 -> v1 <= v2 -> v2 <= vmax -> vnext v1 <= vnext v2.
Proof.
  intros H1 H12 H2. rewrite !vnext_eq.
  pose proof K_nonneg as HK. pose proof K_stable as HS.
  assert (HKd : 0 <= K * dt) by nra.
  assert (Hsum : K * dt * (v1 + v2) <= 1).
  { assert (K * dt * (v1 + v2) <= K * dt * (2 * vmax)).
    { apply Rmult_le_compat_l; lra. }
    lra. }
  assert (E : v2 + (base - K * (v2 * v2)) * dt - (v1 + (base - K * (v1 * v1)) * dt)
              = (v2 - v1) * (1 - K * dt * (v1 + v2))) by ring.
  assert (0 <= (v2 - v1) * (1 - K * dt * (v1 + v2))).
  { apply Rmult_le_pos; lra. }
  lra.
Qed.

(** The run from the larger velocity keeps its lead in distance, and gains
    at least [0.5 (v2 - v1) dt] when an iteration is run. *)
Lemma numeric_loop_gap (n : nat) :
  forall (m : nat) (s1 s2 r1 r2 : nstate),
    nt s1 = nt s2 ->
    0 <= nv s1 -> nv s1 <= nv s2 -> nv s2 <= vmax ->
    loop n s1 = Some (Returns r1) ->
    loop m s2 = Some (Returns r2) ->
    nx s2 - nx s1
    + (if Rlt_dec (nt s1) max_time then 0.5 * (nv s2 - nv s1) * dt else 0)
    <= nx r2 - nx r1.
Proof.
  assert (Hm : mass_kg <> 0) by lra.
  assert (Hdt : 0 <= dt) by lra.
  induction n as [| n IH]; intros m s1 s2 r1 r2 Et Hv1 Hv12 Hv2 L1 L2.
  - simpl in L1. destruct (Rlt_dec (nt s1) max_time) as [Hlt | Hge];
      [discriminate |].
    injection L1 as <-.
    rewrite numeric_loop_done in L2 by (rewrite <- Et; assumption).
    injection L2 as <-. lra.
  - destruct (Rlt_dec (nt s1) max_time) as [Hlt | Hge].
    + assert (Hlt2 : nt s2 < max_time) by (rewrite <- Et; assumption).
      assert (Hv2nn : 0 <= nv s2) by lra.
      pose proof (numeric_loop_first_step _ _ _ _ _ _ _ m s2 r2 Hdt Hv2nn Hlt2 L2)
        as Hfirst.
      rewrite numeric_loop_step in L1 by assumption.
      rewrite numeric_body_eq in L1 by assumption.
      pose proof (vnext_mono (nv s1) (nv s2) Hv1 Hv12 Hv2) as Hmono.
      destruct (Rlt_dec (vnext (nv s1)) 0) as [Hneg | Hnn].
      * injection L1 as <-. simpl. nra.
      * destruct m as [| m];
          [rewrite numeric_loop_out_of_fuel in L2 by assumption; discriminate |].
        rewrite numeric_loop_step in L2 by assumption.
        rewrite numeric_body_eq in L2 by assumption.
        destruct (Rlt_dec (vnext (nv s2)) 0) as [Hneg2 | Hnn2]; [lra |].
        destruct (Rle_dec (vnext (nv s1)) 0.01) as [Hle | Hgt].
        -- injection L1 as <-. simpl.
           destruct (Rle_dec (vnext (nv s2)) 0.01) as [Hle2 | Hgt2].
           ++ injection L2 as <-. simpl. nra.
           ++ assert (Hvn2 : 0 <= vnext (nv s2)) by lra.
              match type of L2 with
              | numeric_loop _ _ _ _ _ _ _ _ ?s = _ =>
                  pose proof (numeric_loop_nonneg _ _ _ _ _ _ _ m s r2 Hdt
                                Hvn2 L2) as (_ & Hx & _)
              end.
              simpl in Hx. nra.
        -- destruct (Rle_dec (vnext (nv s2)) 0.01) as [Hle2 | Hgt2]; [lra |].
           pose proof (vnext_le (nv s2)) as Hle2.
           assert (Hg : 0 <= vnext (nv s1)) by lra.
           assert (Hb : vnext (nv s2) <= vmax) by lra.
           match type of L1 with
           | numeric_loop _ _ _ _ _ _ _ _ ?a = _ =>
               match type of L2 with
               | numeric_loop _ _ _ _ _ _ _ _ ?b = _ =>
                   pose proof (IH m a b r1 r2) as Hgap
               end
           end.
           simpl in Hgap.
           assert (Et' : nt s1 + dt = nt s2 + dt) by lra.
           specialize (Hgap Et' Hg Hmono Hb L1 L2).
           destruct (Rlt_dec (nt s1 + dt) max_time); nra.
    + rewrite numeric_loop_done in L1 by assumption.
      rewrite numeric_loop_done in L2 by (rewrite <- Et; assumption).
      injection L1 as <-. injection L2 as <-. lra.
Qed.

End NumericMonotone.

(** C3, amended, for the numeric model.  With speeds [0 <= s1 < s2], a
    positive mass, a non-negative drag coefficient and frontal area, a
    non-negative reaction time, a positive step, an effective acceleration
    [-mu g cos(alpha) + slopeAcceleration <= 0] and a step that is stable at
    the faster speed ([airDensity Cd area speedMs(s2) dt <= mass]), the total
    distance returned for [s2] is strictly greater than the one returned for
    [s1]; both runs return. *)
Theorem numeric_total_distance_monotone
    (speed1 speed2 mu mass_kg cd frontal_area slope_percent reaction_time dt : R) :
  0 <= speed1 -> speed1 < speed2 ->
  0 < mass_kg -> 0 <= cd -> 0 <= frontal_area ->
  0 <= reaction_time -> 0 < dt ->
  effectiveAcceleration mu slope_percent <= 0 ->
  AIR_DENSITY * cd * frontal_area * convert_kmh_to_ms speed2 * dt <= mass_kg ->
  (forall (fuel1 fuel2 : nat) (r1 r2 : numeric_result),
     stopping_distance_numeric_drag fuel1 speed1 mu mass_kg cd frontal_area
       slope_percent reaction_time dt = Some (Returns r1) ->
     stopping_distance_numeric_drag fuel2 speed2 mu mass_kg cd frontal_area
       slope_percent reaction_time dt = Some (Returns r2) ->
     total_dist r1 < total_dist r2)
  /\
  (exists (fuel1 : nat) (r1 : numeric_result),
     stopping_distance_numeric_drag fuel1 speed1 mu mass_kg cd frontal_area
       slope_percent reaction_time dt = Some (Returns r1))
  /\
  (exists (fuel2 : nat) (r2 : numeric_result),
     stopping_distance_numeric_drag fuel2 speed2 mu mass_kg cd frontal_area
       slope_percent reaction_time dt = Some (Returns r2)).
Proof.
  intros Hs1 Hs12 Hm Hcd Ha Hrt Hdt Heff Hstab.
  assert (Hm0 : mass_kg <> 0) by lra.
  split; [| split; apply numeric_returns; assumption].
  intros fuel1 fuel2 r1 r2 R1 R2.
  destruct (numeric_result_inv _ _ _ _ _ _ _ _ _ _ R1)
    as (e1 & L1 & _ & _ & T1 & _).
  destruct (numeric_result_inv _ _ _ _ _ _ _ _ _ _ R2)
    as (e2 & L2 & _ & _ & T2 & _).
  rewrite <- base_acc_spec in Heff.
  assert (H1 : 0 <= convert_kmh_to_ms speed1) by (unfold convert_kmh_to_ms; lra).
  assert (H12 : convert_kmh_to_ms speed1 < convert_kmh_to_ms speed2)
    by (unfold convert_kmh_to_ms; lra).
  pose proof (numeric_loop_gap mu mass_kg cd frontal_area dt
                (atan (Rabs slope_percent / 100))
                (if Rge_dec slope_percent 0 then true else false)
                (convert_kmh_to_ms speed2) Hm Hcd Ha Hdt Heff Hstab
                fuel1 fuel2
                (mk_nstate (convert_kmh_to_ms speed1) 0 0)
                (mk_nstate (convert_kmh_to_ms speed2) 0 0) e1 e2) as Hgap.
  simpl in Hgap.
  assert (Hle : convert_kmh_to_ms speed1 <= convert_kmh_to_ms speed2) by lra.
  specialize (Hgap eq_refl H1 Hle (Rle_refl _) L1 L2).
  destruct (Rlt_dec 0 max_time) as [_ | Hn];
    [| exfalso; apply Hn; unfold max_time; lra].
  rewrite T1, T2. nra.
Qed.

(** 30 km/h against 60 km/h, [mu = 0.7], a 1300 kg car with [Cd = 0.29] and
    2.2 m2 of frontal area, flat road, 1 s reaction time, the default step. *)
Lemma numeric_total_distance_monotone_witness :
  (exists (fuel1 : nat) (r1 : numeric_result),
     stopping_distance_numeric_drag fuel1 30 0.7 1300 0.29 2.2 0 1 0.01
       = Some (Returns r1))
  /\
  (forall (fuel1 fuel2 : nat) (r1 r2 : numeric_result),
     stopping_distance_numeric_drag fuel1 30 0.7 1300 0.29 2.2 0 1 0.01
       = Some (Returns r1) ->
     stopping_distance_numeric_drag fuel2 60 0.7 1300 0.29 2.2 0 1 0.01
       = Some (Returns r2) ->
     total_dist r1 < total_dist r2).
Proof.
  assert (H1 : 0 <= 30) by lra.
  assert (H2 : 30 < 60) by lra.
  assert (H3 : 0 < 1300) by lra.
  assert (H4 : 0 <= 0.29) by lra.
  assert (H5 : 0 <= 2.2) by lra.
  assert (H6 : 0 <= 1) by lra.
  assert (H7 : 0 < 0.01) by lra.
  assert (H8 : effectiveAcceleration 0.7 0 <= 0).
  { rewrite effectiveAcceleration_flat. unfold G. lra. }
  assert (H9 : AIR_DENSITY * 0.29 * 2.2 * convert_kmh_to_ms 60 * 0.01 <= 1300).
  { unfold AIR_DENSITY, convert_kmh_to_ms. lra. }
  destruct (numeric_total_distance_monotone 30 60 0.7 1300 0.29 2.2 0 1 0.01
              H1 H2 H3 H4 H5 H6 H7 H8 H9) as (Hlt & Hex1 & _).
  split; assumption.
Defined.

(** C3 as stated fails in both models.  Closed-form model: at 30 km/h and at
    60 km/h ([mu = 0.7], flat, 1 s) the total distance is infinite both
    times.  Numeric model: with a 1.225 kg body, [Cd = 1], 2 m2 of frontal
    area, [mu = 0.01], a flat road, no reaction time and a step of 1 s, the
    run from 3.24 km/h overshoots zero in its first step and returns 0.45 m,
    while the run from 2.16 km/h takes three steps and returns more. *)
Lemma total_distance_not_monotone_counterexample :
  (fst (fst (stopping_distance_simple_friction 30 0.7 0 1)) = Infinite /\
   fst (fst (stopping_distance_simple_friction 60 0.7 0 1)) = Infinite)
  /\
  (exists r1 r2 : numeric_result,
     stopping_distance_numeric_drag 3 2.16 0.01 1.225 1 2 0 0 1 = Some (Returns r1) /\
     stopping_distance_numeric_drag 1 3.24 0.01 1.225 1 2 0 0 1 = Some (Returns r2) /\
     2.16 < 3.24 /\
     total_dist r2 < total_dist r1).
Proof.
  split.
  - rewrite !stopping_distance_simple_friction_eq. cbv zeta.
    rewrite effectiveAcceleration_flat.
    destruct (Rle_dec (- (0.7 * G)) 0) as [_ | Hn]; [split; reflexivity |].
    exfalso. apply Hn. unfold G. lra.
  - assert (F : forall v : R,
               v_next 0.01 1.225 1 2 1 (atan (Rabs 0 / 100))
                 (if Rge_dec 0 0 then true else false) v
               = v - 0.0981 - v * v).
    { intros v. unfold v_next. rewrite net_acc_flat.
      unfold G, AIR_DENSITY. lra. }
    assert (E1 : convert_kmh_to_ms 2.16 = 0.6) by (unfold convert_kmh_to_ms; lra).
    assert (E2 : convert_kmh_to_ms 3.24 = 0.9) by (unfold convert_kmh_to_ms; lra).
    unfold stopping_distance_numeric_drag. cbv zeta.
    rewrite E1, E2.
    (* the run from 0.9 m/s: one iteration *)
    rewrite (numeric_loop_step _ _ _ _ _ _ _ 0 (mk_nstate 0.9 0 0))
      by (simpl; unfold max_time; lra).
    rewrite (numeric_body_eq _ _ _ _ _ _ _ (mk_nstate 0.9 0 0)) by lra.
    simpl nv. simpl nx. simpl nt. rewrite !F.
    destruct (Rlt_dec (0.9 - 0.0981 - 0.9 * 0.9) 0) as [_ | Hn]; [| lra].
    (* the run from 0.6 m/s: three iterations *)
    rewrite numeric_loop_step by (simpl; unfold max_time; lra).
    rewrite numeric_body_eq by lra.
    simpl nv. simpl nx. simpl nt. rewrite !F.
    replace (0.6 - 0.0981 - 0.6 * 0.6) with 0.1419 by lra.
    destruct (Rlt_dec 0.1419 0); [lra |].
    destruct (Rle_dec 0.1419 0.01); [lra |].
    rewrite numeric_loop_step by (simpl; unfold max_time; lra).
    rewrite numeric_body_eq by lra.
    simpl nv. simpl nx. simpl nt. rewrite !F.
    replace (0.1419 - 0.0981 - 0.1419 * 0.1419) with 0.02366439 by lra.
    destruct (Rlt_dec 0.02366439 0); [lra |].
    destruct (Rle_dec 0.02366439 0.01); [lra |].
    rewrite numeric_loop_step by (simpl; unfold max_time; lra).
    rewrite numeric_body_eq by lra.
    simpl nv. simpl nx. simpl nt. rewrite !F.
    destruct (Rlt_dec (0.02366439 - 0.0981 - 0.02366439 * 0.02366439) 0);
      [| lra].
    do 2 eexists. split; [reflexivity |]. split; [reflexivity |].
    simpl. lra.
Qed.

(** ** Profile sampler *)

Lemma convert_ms_to_kmh_threshold : convert_ms_to_kmh 0.01 = 0.036.
Proof. unfold convert_ms_to_kmh. lra. Qed.

Lemma convert_ms_to_kmh_le (v w : R) :
  v <= w -> convert_ms_to_kmh v <= convert_ms_to_kmh w.
Proof. unfold convert_ms_to_kmh. lra. Qed.

Section ProfileFacts.

Variables (mu mass_kg cd frontal_area dt alpha reaction_time : R)
          (is_uphill : bool).

Local Abbreviation rloop := (reaction_loop dt reaction_time).
Local Abbreviation bbody :=
  (braking_body mu mass_kg cd frontal_area dt alpha is_uphill).
Local Abbreviation bloop :=
  (braking_loop mu mass_kg cd frontal_area dt alpha reaction_time is_uphill).
Local Abbreviation v_clamped :=
  (v_clamped mu mass_kg cd frontal_area dt alpha is_uphill).
Local Abbreviation braking_post :=
  (braking_post mu mass_kg cd frontal_area dt alpha is_uphill).

(** *** Reaction phase *)

Lemma reaction_loop_fuel_enough (n : nat) :
  forall s : pstate,
    reaction_time - pt s < INR n * dt ->
    exists r, rloop n s = Some r.
Proof.
  induction n as [| n IH]; intros s Hn; simpl.
  - destruct (Rle_dec (pt s) reaction_time) as [Hle | Hgt].
    + simpl in Hn. lra.
    + eexists; reflexivity.
  - destruct (Rle_dec (pt s) reaction_time) as [Hle | Hgt].
    + apply IH. simpl. rewrite S_INR in Hn. lra.
    + eexists; reflexivity.
Qed.

(** The reaction loop ends past the reaction time, with [v] unchanged. *)
Lemma reaction_loop_exit (n : nat) :
  forall s r : pstate,
    rloop n s = Some r ->
    reaction_time < pt r /\ pv r = pv s.
Proof.
  induction n as [| n IH]; intros s r H; simpl in H.
  - destruct (Rle_dec (pt s) reaction_time); [discriminate |].
    injection H as <-. lra.
  - destruct (Rle_dec (pt s) reaction_time).
    + destruct (IH _ _ H) as [Ht Hv]. simpl in Hv. auto.
    + injection H as <-. lra.
Qed.

(** *** Braking phase *)

Lemma braking_body_eq (s : pstate) :
  mass_kg <> 0 ->
  bbody s =
    if Rle_dec (v_clamped (pv s)) 0.01 then Break (braking_post s)
    else Continue (braking_post s).
Proof.
  intros Hm. unfold braking_body, braking_post, v_clamped, v_next, net_acc.
  destruct (Req_dec_T mass_kg 0) as [E | _]; [contradiction | reflexivity].
Qed.

Lemma braking_body_raise (s : pstate) : mass_kg = 0 -> bbody s = Raise.
Proof.
  intros Hm. unfold braking_body.
  destruct (Req_dec_T mass_kg 0) as [_ | N]; [reflexivity | contradiction].
Qed.

Lemma braking_body_inv (s s' : pstate) :
  bbody s = Continue s' \/ bbody s = Break s' ->
  mass_kg <> 0 /\ s' = braking_post s /\
  (bbody s = Break s' -> v_clamped (pv s) <= 0.01).
Proof.
  intros H.
  destruct (Req_dec_T mass_kg 0) as [E | Hm].
  { rewrite (braking_body_raise s E) in H. destruct H; discriminate. }
  split; [exact Hm |].
  rewrite (braking_body_eq s Hm) in *.
  destruct (Rle_dec (v_clamped (pv s)) 0.01) as [Hle | Hgt].
  - destruct H as [H | H]; [discriminate |].
    injection H as <-. split; [reflexivity | intros _; exact Hle].
  - destruct H as [H | H]; [| discriminate].
    injection H as <-. split; [reflexivity | intros; discriminate].
Qed.

Lemma braking_loop_fuel_enough (n : nat) :
  forall s : pstate,
    reaction_time + max_time - pt s < INR n * dt ->
    exists r, bloop n s = Some r.
Proof.
  induction n as [| n IH]; intros s Hn; simpl.
  - destruct (Rle_dec (pt s) (reaction_time + max_time)) as [Hle | Hgt].
    + simpl in Hn. lra.
    + eexists; reflexivity.
  - destruct (Rle_dec (pt s) (reaction_time + max_time)) as [Hle | Hgt].
    + destruct (bbody s) as [s' | s' |] eqn:Eb.
      * destruct (braking_body_inv s s' (or_introl Eb)) as (_ & -> & _).
        apply IH. simpl. rewrite S_INR in Hn. lra.
      * eexists; reflexivity.
      * eexists; reflexivity.
    + eexists; reflexivity.
Qed.

Lemma braking_loop_no_raise (n : nat) :
  forall s : pstate, mass_kg <> 0 -> bloop n s <> Some ZeroDivisionError.
Proof.
  induction n as [| n IH]; intros s Hm; simpl.
  - destruct (Rle_dec (pt s) (reaction_time + max_time)); discriminate.
  - destruct (Rle_dec (pt s) (reaction_time + max_time)); [| discriminate].
    rewrite braking_body_eq by assumption.
    destruct (Rle_dec (v_clamped (pv s)) 0.01); [discriminate |].
    apply IH. assumption.
Qed.

(** More fuel does not change what the two loops return. *)
Lemma reaction_loop_more_fuel (n : nat) :
  forall (m : nat) (s r : pstate),
    (n <= m)%nat -> rloop n s = Some r -> rloop m s = Some r.
Proof.
  induction n as [| n IH]; intros m s r Hle H.
  - simpl in H. destruct (Rle_dec (pt s) reaction_time) as [Hc | Hc];
      [discriminate |].
    destruct m; simpl; destruct (Rle_dec (pt s) reaction_time);
      try contradiction; assumption.
  - destruct m as [| m]; [lia |].
    simpl in *. destruct (Rle_dec (pt s) reaction_time); [| assumption].
    apply IH; [lia | assumption].
Qed.

Lemma braking_loop_more_fuel (n : nat) :
  forall (m : nat) (s : pstate) (r : result pstate),
    (n <= m)%nat -> bloop n s = Some r -> bloop m s = Some r.
Proof.
  induction n as [| n IH]; intros m s r Hle H.
  - simpl in H.
    destruct (Rle_dec (pt s) (reaction_time + max_time)) as [Hc | Hc];
      [discriminate |].
    destruct m; simpl; destruct (Rle_dec (pt s) (reaction_time + max_time));
      try contradiction; assumption.
  - destruct m as [| m]; [lia |].
    simpl in *.
    destruct (Rle_dec (pt s) (reaction_time + max_time)); [| assumption].
    destruct (bbody s); try assumption.
    apply IH; [lia | assumption].
Qed.

(** The braking loop only appends to the list of speeds. *)
Lemma braking_loop_appends (n : nat) :
  forall s r : pstate,
    bloop n s = Some (Returns r) ->
    exists bs : list R, speed_vals_kmh r = speed_vals_kmh s ++ bs.
Proof.
  induction n as [| n IH]; intros s r H; simpl in H.
  - destruct (Rle_dec (pt s) (reaction_time + max_time)); [discriminate |].
    injection H as <-. exists []. rewrite app_nil_r. reflexivity.
  - destruct (Rle_dec (pt s) (reaction_time + max_time)).
    + destruct (bbody s) as [s' | s' |] eqn:Eb; [| | discriminate].
      * destruct (braking_body_inv s s' (or_introl Eb)) as (_ & -> & _).
        destruct (IH _ _ H) as [bs Hbs]. simpl in Hbs.
        exists (convert_ms_to_kmh (v_clamped (pv s)) :: bs).
        rewrite Hbs, <- app_assoc. reflexivity.
      * destruct (braking_body_inv s s' (or_intror Eb)) as (_ & -> & _).
        injection H as <-. simpl. eexists; reflexivity.
    + injection H as <-. exists []. rewrite app_nil_r. reflexivity.
Qed.

(** The braking loop ends past the cap, or on a sample at or below the
    stop threshold. *)
Lemma braking_loop_exit (n : nat) :
  forall s r : pstate,
    bloop n s = Some (Returns r) ->
    reaction_time + max_time < pt r \/
    exists (l : list R) (v : R),
      speed_vals_kmh r = l ++ [v] /\ v <= convert_ms_to_kmh 0.01.
Proof.
  induction n as [| n IH]; intros s r H; simpl in H.
  - destruct (Rle_dec (pt s) (reaction_time + max_time)); [discriminate |].
    injection H as <-. left. lra.
  - destruct (Rle_dec (pt s) (reaction_time + max_time)).
    + destruct (bbody s) as [s' | s' |] eqn:Eb; [| | discriminate].
      * exact (IH _ _ H).
      * destruct (braking_body_inv s s' (or_intror Eb)) as (_ & -> & Hle).
        injection H as <-. right.
        exists (speed_vals_kmh s), (convert_ms_to_kmh (v_clamped (pv s))).
        split; [reflexivity |].
        apply convert_ms_to_kmh_le. apply Hle. exact Eb.
    + injection H as <-. left. lra.
Qed.

End ProfileFacts.

Section ProfileMonotone.

Variables (mu mass_kg cd frontal_area dt alpha reaction_time : R)
          (is_uphill : bool).

Hypothesis mass_pos : 0 < mass_kg.
Hypothesis cd_nonneg : 0 <= cd.
Hypothesis area_nonneg : 0 <= frontal_area.
Hypothesis dt_pos : 0 < dt.
Hypothesis base_nonpos :
  - mu * G * cos alpha + (if is_uphill then - G * sin alpha else G * sin alpha) <= 0.

Local Abbreviation bbody :=
  (braking_body mu mass_kg cd frontal_area dt alpha is_uphill).
Local Abbreviation bloop :=
  (braking_loop mu mass_kg cd frontal_area dt alpha reaction_time is_uphill).
Local Abbreviation vcl :=
  (v_clamped mu mass_kg cd frontal_area dt alpha is_uphill).

Lemma v_clamped_bounds (v : R) : 0 <= v -> 0 <= vcl v <= v.
Proof.
  intros Hv. unfold v_clamped.
  pose proof (vnext_le mu mass_kg cd frontal_area dt alpha is_uphill
                mass_pos cd_nonneg area_nonneg dt_pos base_nonpos v) as Hle.
  destruct (Rlt_dec _ 0); lra.
Qed.

(** The samples of the braking phase: each is at most the one before, and
    all are at most the speed at which the phase starts. *)
Lemma braking_loop_sorted (n : nat) :
  forall s r : pstate,
    0 <= pv s ->
    bloop n s = Some (Returns r) ->
    exists bs : list R,
      speed_vals_kmh r = speed_vals_kmh s ++ bs /\
      Sorted Rge bs /\
      Forall (fun y => y <= convert_ms_to_kmh (pv s)) bs.
Proof.
  induction n as [| n IH]; intros s r Hv H; simpl in H.
  - destruct (Rle_dec (pt s) (reaction_time + max_time)); [discriminate |].
    injection H as <-. exists []. rewrite app_nil_r. auto.
  - destruct (Rle_dec (pt s) (reaction_time + max_time)).
    + destruct (v_clamped_bounds (pv s) Hv) as [Hc0 Hc1].
      destruct (bbody s) as [s' | s' |] eqn:Eb; [| | discriminate].
      * destruct (braking_body_inv _ _ _ _ _ _ _ s s' (or_introl Eb))
          as (_ & -> & _).
        destruct (IH (braking_post mu mass_kg cd frontal_area dt alpha
                        is_uphill s) r Hc0 H) as (bs & Hbs & Hsorted & Hall).
        simpl in Hbs, Hall.
        exists (convert_ms_to_kmh (vcl (pv s)) :: bs).
        split; [rewrite Hbs, <- app_assoc; reflexivity |].
        split.
        -- constructor; [assumption |].
           destruct bs as [| b bs']; constructor.
           inversion Hall; subst. lra.
        -- constructor; [apply convert_ms_to_kmh_le; assumption |].
           eapply Forall_impl; [| exact Hall].
           intros y Hy. simpl in Hy.
           pose proof (convert_ms_to_kmh_le _ _ Hc1). lra.
      * destruct (braking_body_inv _ _ _ _ _ _ _ s s' (or_intror Eb))
          as (_ & -> & _).
        injection H as <-. simpl.
        exists [convert_ms_to_kmh (vcl (pv s))].
        split; [reflexivity |]. split.
        -- repeat constructor.
        -- constructor; [apply convert_ms_to_kmh_le; assumption | constructor].
    + injection H as <-. exists []. rewrite app_nil_r. auto.
Qed.

End ProfileMonotone.

(** The sampler ends within [max(reactionTime, 0) / dt + 1] iterations of
    its first loop and [300 / dt + 1] iterations of its second. *)
Lemma profile_terminates
    (speed_kmh mu mass_kg cd frontal_area slope_percent reaction_time dt : R) :
  0 < dt ->
  exists n1 n2 : nat,
    INR n1 <= Rmax reaction_time 0 / dt + 1 /\
    INR n2 <= max_time / dt + 1 /\
    exists r,
      profile_run n1 n2 speed_kmh mu mass_kg cd frontal_area slope_percent
        reaction_time dt = Some r.
Proof.
  intros Hdt.
  assert (Hcap : 0 <= max_time) by (unfold max_time; lra).
  pose proof (Rmax_l reaction_time 0) as Hl.
  pose proof (Rmax_r reaction_time 0) as Hr.
  destruct (cap_iterations (Rmax reaction_time 0) dt Hr Hdt) as [A1 A2].
  destruct (cap_iterations max_time dt Hcap Hdt) as [B1 B2].
  set (n1 := Z.to_nat (up (Rmax reaction_time 0 / dt))) in *.
  set (n2 := Z.to_nat (up (max_time / dt))) in *.
  exists n1, n2. split; [exact A2 |]. split; [exact B2 |].
  unfold profile_run. cbv zeta.
  destruct (reaction_loop_fuel_enough dt reaction_time n1
              (mk_pstate 0 (convert_kmh_to_ms speed_kmh) 0 [] [])) as [sr Hsr].
  { simpl. lra. }
  rewrite Hsr.
  destruct (reaction_loop_exit _ _ _ _ _ Hsr) as [Ht _].
  apply braking_loop_fuel_enough. lra.
Qed.

Lemma profile_run_inv (fuel1 fuel2 : nat)
    (speed_kmh mu mass_kg cd frontal_area slope_percent reaction_time dt : R)
    (r : result pstate) :
  profile_run fuel1 fuel2 speed_kmh mu mass_kg cd frontal_area slope_percent
    reaction_time dt = Some r ->
  exists sr : pstate,
    reaction_loop dt reaction_time fuel1
      (mk_pstate 0 (convert_kmh_to_ms speed_kmh) 0 [] []) = Some sr /\
    braking_loop mu mass_kg cd frontal_area dt (atan (Rabs slope_percent / 100))
      reaction_time (if Rge_dec slope_percent 0 then true else false)
      fuel2 sr = Some r /\
    pv sr = convert_kmh_to_ms speed_kmh.
Proof.
  unfold profile_run. cbv zeta. intros H.
  destruct (reaction_loop dt reaction_time fuel1
              (mk_pstate 0 (convert_kmh_to_ms speed_kmh) 0 [] [])) as [sr |] eqn:E;
    [| discriminate].
  exists sr. split; [reflexivity |]. split; [exact H |].
  destruct (reaction_loop_exit _ _ _ _ _ E) as [_ Hv]. exact Hv.
Qed.

Lemma profile_result_inv (fuel1 fuel2 : nat)
    (speed_kmh mu mass_kg cd frontal_area slope_percent reaction_time dt : R)
    (ds ss : list R) :
  get_distance_speed_profile fuel1 fuel2 speed_kmh mu mass_kg cd frontal_area
    slope_percent reaction_time dt = Some (Returns (ds, ss)) ->
  exists r : pstate,
    profile_run fuel1 fuel2 speed_kmh mu mass_kg cd frontal_area slope_percent
      reaction_time dt = Some (Returns r) /\
    ds = distance_vals r /\ ss = speed_vals_kmh r.
Proof.
  unfold get_distance_speed_profile. intros H.
  destruct (profile_run fuel1 fuel2 speed_kmh mu mass_kg cd frontal_area
              slope_percent reaction_time dt) as [[r |] |]; try discriminate.
  injection H as <- <-. exists r. auto.
Qed.

(** What the sampler returns does not depend on the fuel. *)
Lemma get_distance_speed_profile_deterministic (f1 f2 g1 g2 : nat)
    (speed_kmh mu mass_kg cd frontal_area slope_percent reaction_time dt : R)
    (r1 r2 : result (list R * list R)) :
  get_distance_speed_profile f1 f2 speed_kmh mu mass_kg cd frontal_area
    slope_percent reaction_time dt = Some r1 ->
  get_distance_speed_profile g1 g2 speed_kmh mu mass_kg cd frontal_area
    slope_percent reaction_time dt = Some r2 ->
  r1 = r2.
Proof.
  unfold get_distance_speed_profile. intros H1 H2.
  destruct (profile_run f1 f2 speed_kmh mu mass_kg cd frontal_area
              slope_percent reaction_time dt) as [e1 |] eqn:E1; [| discriminate].
  destruct (profile_run g1 g2 speed_kmh mu mass_kg cd frontal_area
              slope_percent reaction_time dt) as [e2 |] eqn:E2; [| discriminate].
  destruct (profile_run_inv _ _ _ _ _ _ _ _ _ _ _ E1) as (sr1 & R1 & B1 & _).
  destruct (profile_run_inv _ _ _ _ _ _ _ _ _ _ _ E2) as (sr2 & R2 & B2 & _).
  apply (reaction_loop_more_fuel _ _ f1 (Nat.max f1 g1)) in R1; [| lia].
  apply (reaction_loop_more_fuel _ _ g1 (Nat.max f1 g1)) in R2; [| lia].
  assert (sr1 = sr2) by congruence. subst sr2.
  apply (braking_loop_more_fuel _ _ _ _ _ _ _ _ f2 (Nat.max f2 g2)) in B1; [| lia].
  apply (braking_loop_more_fuel _ _ _ _ _ _ _ _ g2 (Nat.max f2 g2)) in B2; [| lia].
  assert (e1 = e2) by congruence. subst e2.
  destruct e1; congruence.
Qed.

Lemma profile_returns
    (speed_kmh mu mass_kg cd frontal_area slope_percent reaction_time dt : R) :
  0 < dt -> mass_kg <> 0 ->
  exists (fuel1 fuel2 : nat) (ds ss : list R),
    get_distance_speed_profile fuel1 fuel2 speed_kmh mu mass_kg cd frontal_area
      slope_percent reaction_time dt = Some (Returns (ds, ss)).
Proof.
  intros Hdt Hm.
  destruct (profile_terminates speed_kmh mu mass_kg cd frontal_area
              slope_percent reaction_time dt Hdt) as (n1 & n2 & _ & _ & r & Hr).
  exists n1, n2. unfold get_distance_speed_profile. rewrite Hr.
  destruct r as [r |]; [do 2 eexists; reflexivity |].
  exfalso.
  destruct (profile_run_inv _ _ _ _ _ _ _ _ _ _ _ Hr) as (sr & _ & Hb & _).
  exact (braking_loop_no_raise _ _ _ _ _ _ _ _ n2 sr Hm Hb).
Qed.

(** C6, amended.  For inputs with [speedKmh >= 0], a positive mass, a
    non-negative drag coefficient and frontal area, a positive step and an
    effective acceleration [-mu g cos(alpha) + slopeAcceleration <= 0], the
    sampler returns, and in what it returns the speeds sampled in the braking
    phase are non-increasing from the first of them onward; the last sample
    is at most 0.036 km/h (0.01 m/s) unless the loop ended past the cap
    [reactionTime + 300]. *)
Theorem profile_speeds_nonincreasing
    (speed_kmh mu mass_kg cd frontal_area slope_percent reaction_time dt : R) :
  0 <= speed_kmh ->
  0 < mass_kg -> 0 <= cd -> 0 <= frontal_area -> 0 < dt ->
  effectiveAcceleration mu slope_percent <= 0 ->
  (forall (fuel1 fuel2 : nat) (ds ss : list R),
     get_distance_speed_profile fuel1 fuel2 speed_kmh mu mass_kg cd
       frontal_area slope_percent reaction_time dt = Some (Returns (ds, ss)) ->
     exists (sr r : pstate) (bs : list R),
       reaction_loop dt reaction_time fuel1
         (mk_pstate 0 (convert_kmh_to_ms speed_kmh) 0 [] []) = Some sr /\
       profile_run fuel1 fuel2 speed_kmh mu mass_kg cd frontal_area
         slope_percent reaction_time dt = Some (Returns r) /\
       ss = speed_vals_kmh sr ++ bs /\
       Sorted Rge bs /\
       (reaction_time + max_time < pt r \/
        exists (l : list R) (v : R), ss = l ++ [v] /\ v <= 0.036))
  /\
  (exists (fuel1 fuel2 : nat) (ds ss : list R),
     get_distance_speed_profile fuel1 fuel2 speed_kmh mu mass_kg cd
       frontal_area slope_percent reaction_time dt = Some (Returns (ds, ss))).
Proof.
  intros Hs Hm Hcd Ha Hdt Heff.
  split; [| apply profile_returns; lra].
  intros fuel1 fuel2 ds ss H.
  destruct (profile_result_inv _ _ _ _ _ _ _ _ _ _ _ _ H) as (r & Hrun & _ & ->).
  destruct (profile_run_inv _ _ _ _ _ _ _ _ _ _ _ Hrun) as (sr & Hr & Hb & Hv).
  rewrite <- base_acc_spec in Heff.
  assert (Hv0 : 0 <= pv sr).
  { rewrite Hv. unfold convert_kmh_to_ms. lra. }
  destruct (braking_loop_sorted _ _ _ _ _ _ reaction_time _
              Hm Hcd Ha Hdt Heff fuel2 sr r Hv0 Hb) as (bs & Hbs & Hsorted & _).
  exists sr, r, bs.
  split; [exact Hr |]. split; [exact Hrun |]. split; [exact Hbs |].
  split; [exact Hsorted |].
  rewrite <- convert_ms_to_kmh_threshold.
  exact (braking_loop_exit _ _ _ _ _ _ _ _ fuel2 sr r Hb).
Qed.

(** 60 km/h, [mu = 0.7], a 1300 kg car, flat road, 1 s reaction time, the
    sampler's default step. *)
Lemma profile_speeds_nonincreasing_witness :
  exists (fuel1 fuel2 : nat) (ds ss : list R),
    get_distance_speed_profile fuel1 fuel2 60 0.7 1300 0.29 2.2 0 1 0.05
      = Some (Returns (ds, ss)) /\
    exists (sr : pstate) (bs : list R),
      reaction_loop 0.05 1 fuel1 (mk_pstate 0 (convert_kmh_to_ms 60) 0 [] [])
        = Some sr /\
      ss = speed_vals_kmh sr ++ bs /\ Sorted Rge bs.
Proof.
  assert (H1 : 0 <= 60) by lra.
  assert (H2 : 0 < 1300) by lra.
  assert (H3 : 0 <= 0.29) by lra.
  assert (H4 : 0 <= 2.2) by lra.
  assert (H5 : 0 < 0.05) by lra.
  assert (H6 : effectiveAcceleration 0.7 0 <= 0).
  { rewrite effectiveAcceleration_flat. unfold G. lra. }
  destruct (profile_speeds_nonincreasing 60 0.7 1300 0.29 2.2 0 1 0.05
              H1 H2 H3 H4 H5 H6) as (Hall & fuel1 & fuel2 & ds & ss & Hret).
  exists fuel1, fuel2, ds, ss. split; [exact Hret |].
  destruct (Hall fuel1 fuel2 ds ss Hret) as (sr & r & bs & Hr & _ & Hss & Hsorted & _).
  exists sr, bs. auto.
Defined.

(** The cosine of the grade angle of an 8 % slope. *)
Lemma cos_grade_8 : 0.99 <= cos (atan (8 / 100)) <= 1.
Proof.
  split; [| apply cos_atan_le_1].
  pose proof (cos_atan_pos (8 / 100)) as Hc.
  pose proof (sin2_cos2 (atan (8 / 100))) as H.
  rewrite sin_atan_cos in H. unfold Rsqr in H.
  nra.
Qed.

Lemma effectiveAcceleration_ice_downhill :
  0.29 <= effectiveAcceleration 0.05 (-8) <= 0.3.
Proof.
  rewrite effectiveAcceleration_factor.
  destruct (Rge_dec (-8) 0) as [Hge | _]; [lra |].
  unfold gradeAngle.
  replace (Rabs (-8)) with 8 by (rewrite Rabs_left; lra).
  pose proof cos_grade_8 as [Hc1 Hc2].
  unfold G. nra.
Qed.

(** C6 as stated fails on a steep downhill that friction cannot hold: at
    36 km/h with [mu = 0.05] on an 8 % downhill (1300 kg, [Cd = 0.29],
    2.2 m2, no reaction time, step 0.05 s) the sampler returns, and the
    second speed sampled in the braking phase is greater than the first. *)
Lemma profile_speed_increases_counterexample :
  exists (fuel1 fuel2 : nat) (ds rest : list R) (v1 v2 : R),
    get_distance_speed_profile fuel1 fuel2 36 0.05 1300 0.29 2.2 (-8) 0 0.05
      = Some (Returns (ds, convert_ms_to_kmh 10 :: v1 :: v2 :: rest)) /\
    v1 < v2.
Proof.
  pose proof effectiveAcceleration_ice_downhill as [He1 He2].
  set (al := atan (Rabs (-8) / 100)).
  set (uh := if Rge_dec (-8) 0 then true else false).
  assert (F : forall v : R,
             v_next 0.05 1300 0.29 2.2 0.05 al uh v =
             v + (effectiveAcceleration 0.05 (-8)
                  - dragAcceleration 0.29 2.2 1300 v) * 0.05).
  { intros v. unfold v_next, al, uh. rewrite net_acc_spec. reflexivity. }
  set (w1 := v_next 0.05 1300 0.29 2.2 0.05 al uh 10).
  set (w2 := v_next 0.05 1300 0.29 2.2 0.05 al uh w1).
  assert (Hw1 : 10 < w1 < 10.02).
  { unfold w1. rewrite F. unfold dragAcceleration, AIR_DENSITY. lra. }
  assert (Hw12 : w1 < w2).
  { unfold w2. rewrite F. unfold dragAcceleration, AIR_DENSITY.
    assert (w1 * w1 < 101) by nra. lra. }
  assert (C1 : v_clamped 0.05 1300 0.29 2.2 0.05 al uh 10 = w1).
  { unfold v_clamped. fold w1. destruct (Rlt_dec w1 0); [lra | reflexivity]. }
  assert (C2 : v_clamped 0.05 1300 0.29 2.2 0.05 al uh w1 = w2).
  { unfold v_clamped. fold w2. destruct (Rlt_dec w2 0); [lra | reflexivity]. }
  (* the reaction phase: one iteration *)
  set (sr := mk_pstate (0 + 10 * 0.05) 10 (0 + 0.05) [0] [convert_ms_to_kmh 10]).
  assert (Hr : reaction_loop 0.05 0 1 (mk_pstate 0 (convert_kmh_to_ms 36) 0 [] [])
               = Some sr).
  { replace (convert_kmh_to_ms 36) with 10 by (unfold convert_kmh_to_ms; lra).
    simpl. destruct (Rle_dec 0 0) as [_ | Hn]; [| lra].
    destruct (Rle_dec (0 + 0.05) 0) as [Hle | _]; [lra |].
    reflexivity. }
  (* the braking phase ends *)
  destruct (braking_loop_fuel_enough 0.05 1300 0.29 2.2 0.05 al 0 uh
              (Z.to_nat (up (max_time / 0.05))) sr) as [res Hres].
  { assert (Hcap : 0 <= max_time) by (unfold max_time; lra).
    assert (Hdt : 0 < 0.05) by lra.
    destruct (cap_iterations max_time 0.05 Hcap Hdt) as [B _].
    simpl pt. lra. }
  destruct res as [r |];
    [| exfalso; refine (braking_loop_no_raise _ _ _ _ _ _ _ _ _ _ _ Hres); lra].
  (* its first two iterations go on *)
  remember (Z.to_nat (up (max_time / 0.05))) as n eqn:En. clear En.
  assert (Hm : (1300 : R) <> 0) by lra.
  destruct n as [| n]; simpl in Hres.
  { destruct (Rle_dec (0 + 0.05) (0 + max_time)) as [_ | Hn];
      [discriminate | exfalso; apply Hn; unfold max_time; lra]. }
  destruct (Rle_dec (0 + 0.05) (0 + max_time)) as [_ | Hn];
    [| exfalso; apply Hn; unfold max_time; lra].
  rewrite (braking_body_eq _ _ _ _ _ _ _ sr Hm) in Hres.
  simpl pv in Hres. rewrite C1 in Hres.
  destruct (Rle_dec w1 0.01) as [Hle | _]; [lra |].
  destruct n as [| n]; simpl in Hres.
  { destruct (Rle_dec (0 + 0.05 + 0.05) (0 + max_time)) as [_ | Hn];
      [discriminate | exfalso; apply Hn; unfold max_time; lra]. }
  destruct (Rle_dec (0 + 0.05 + 0.05) (0 + max_time)) as [_ | Hn];
    [| exfalso; apply Hn; unfold max_time; lra].
  rewrite (braking_body_eq _ _ _ _ _ _ _ _ Hm) in Hres.
  simpl pv in Hres. rewrite C1, C2 in Hres.
  destruct (Rle_dec w2 0.01) as [Hle | _]; [lra |].
  destruct (braking_loop_appends _ _ _ _ _ _ _ _ _ _ _ Hres) as [bs Hbs].
  simpl in Hbs. rewrite C1, C2 in Hbs.
  exists 1%nat, (S (S n)), (distance_vals r), bs,
    (convert_ms_to_kmh w1), (convert_ms_to_kmh w2).
  split.
  - unfold get_distance_speed_profile, profile_run. cbv zeta.
    fold al uh. rewrite Hr.
    simpl.
    destruct (Rle_dec (0 + 0.05) (0 + max_time)) as [_ | Hn];
      [| exfalso; apply Hn; unfold max_time; lra].
    rewrite (braking_body_eq _ _ _ _ _ _ _ sr Hm).
    simpl pv. rewrite C1.
    destruct (Rle_dec w1 0.01) as [Hle | _]; [lra |].
    simpl.
    destruct (Rle_dec (0 + 0.05 + 0.05) (0 + max_time)) as [_ | Hn];
      [| exfalso; apply Hn; unfold max_time; lra].
    rewrite (braking_body_eq _ _ _ _ _ _ _ _ Hm).
    simpl pv. rewrite C1, C2.
    destruct (Rle_dec w2 0.01) as [Hle | _]; [lra |].
    rewrite Hres. rewrite Hbs. reflexivity.
  - unfold convert_ms_to_kmh. lra.
Qed.

(** ** Termination *)

(** C7. For every [dt > 0], the braking loop of the numeric model and both
    loops of the sampler end after finitely many iterations (a unit of fuel
    is one iteration): at most [300 / dt + 1] for the numeric model's loop,
    at most [max(reactionTime, 0) / dt + 1] for the sampler's reaction loop
    and at most [300 / dt + 1] for its braking loop, so at most
    [(reactionTime + 300) / dt + 2] for the sampler.  A call ends by
    returning, or by raising [ZeroDivisionError] when the mass is zero. *)
Theorem loops_terminate
    (speed_kmh mu mass_kg cd frontal_area slope_percent reaction_time dt : R) :
  0 < dt ->
  (exists n : nat,
     INR n <= max_time / dt + 1 /\
     exists r,
       stopping_distance_numeric_drag n speed_kmh mu mass_kg cd frontal_area
         slope_percent reaction_time dt = Some r)
  /\
  (exists n1 n2 : nat,
     INR n1 <= Rmax reaction_time 0 / dt + 1 /\
     INR n2 <= max_time / dt + 1 /\
     INR (n1 + n2) <= (Rmax reaction_time 0 + max_time) / dt + 2 /\
     exists r,
       get_distance_speed_profile n1 n2 speed_kmh mu mass_kg cd frontal_area
         slope_percent reaction_time dt = Some r).
Proof.
  intros Hdt. split.
  - apply numeric_terminates. assumption.
  - destruct (profile_terminates speed_kmh mu mass_kg cd frontal_area
                slope_percent reaction_time dt Hdt)
      as (n1 & n2 & B1 & B2 & r & Hr).
    exists n1, n2. split; [exact B1 |]. split; [exact B2 |]. split.
    + rewrite plus_INR.
      replace ((Rmax reaction_time 0 + max_time) / dt + 2)
        with ((Rmax reaction_time 0 / dt + 1) + (max_time / dt + 1))
        by (field; lra).
      lra.
    + unfold get_distance_speed_profile. rewrite Hr.
      destruct r; eexists; reflexivity.
Qed.

(** The default steps: 0.01 s for the numeric model (at most 30001
    iterations). *)
Lemma loops_terminate_witness :
  exists n : nat,
    INR n <= 30001 /\
    exists r,
      stopping_distance_numeric_drag n 60 0.7 1300 0.29 2.2 0 1 0.01 = Some r.
Proof.
  assert (Hdt : 0 < 0.01) by lra.
  destruct (loops_terminate 60 0.7 1300 0.29 2.2 0 1 0.01 Hdt)
    as ((n & Hn & r & Hr) & _).
  exists n. split; [| exists r; exact Hr].
  unfold max_time in Hn. lra.
Defined.

(** * Further properties of the kernel *)

(** ** Unit conversion *)

Lemma convert_kmh_ms_kmh (speed : R) :
  convert_ms_to_kmh (convert_kmh_to_ms speed) = speed.
Proof. unfold convert_ms_to_kmh, convert_kmh_to_ms. lra. Qed.

(** X1. The two conversions are inverse to each other: km/h to m/s and back
    gives the speed one started from, and so does m/s to km/h and back. *)
Theorem convert_round_trip (speed : R) :
  convert_ms_to_kmh (convert_kmh_to_ms speed) = speed /\
  convert_kmh_to_ms (convert_ms_to_kmh speed) = speed.
Proof.
  unfold convert_ms_to_kmh, convert_kmh_to_ms. split; lra.
Qed.

(** ** Friction combiner *)

Lemma py_max_mono (a b c : R) : a <= b -> py_max a c <= py_max b c.
Proof.
  intros H. unfold py_max.
  destruct (Rgt_dec c a); destruct (Rgt_dec c b); lra.
Qed.

(** X2. The combined friction does not decrease when the weather friction
    grows (tyre factor non-negative) or when the tyre factor grows (weather
    friction non-negative). *)
Theorem calc_final_friction_monotone
    (weather1 weather2 tyre1 tyre2 : R) (abs_active : bool) :
  0 <= weather1 -> 0 <= tyre1 ->
  weather1 <= weather2 -> tyre1 <= tyre2 ->
  calc_final_friction weather1 tyre1 abs_active
  <= calc_final_friction weather2 tyre2 abs_active.
Proof.
  intros Hw Ht Hw12 Ht12. unfold calc_final_friction. cbv zeta.
  assert (Hprod : weather1 * tyre1 <= weather2 * tyre2) by nra.
  destruct abs_active; apply py_max_mono; lra.
Qed.

(** Ice against dry asphalt, poor against good tyres, with ABS. *)
Lemma calc_final_friction_monotone_witness :
  calc_final_friction 0.10 0.5 true <= calc_final_friction 0.85 1.0 true.
Proof.
  apply (calc_final_friction_monotone 0.10 0.85 0.5 1.0 true); lra.
Defined.

(** X3. ABS never lowers the combined friction and raises it by at most
    0.05; it raises it by exactly 0.05 when the friction without ABS is
    above the floor ([weather_mu * tyre_factor >= 0.01]). *)
Theorem calc_final_friction_abs_bonus (weather_mu tyre_factor : R) :
  calc_final_friction weather_mu tyre_factor false
    <= calc_final_friction weather_mu tyre_factor true
  /\ calc_final_friction weather_mu tyre_factor true
    <= calc_final_friction weather_mu tyre_factor false + 0.05
  /\ (0.01 <= weather_mu * tyre_factor ->
      calc_final_friction weather_mu tyre_factor true
      = calc_final_friction weather_mu tyre_factor false + 0.05).
Proof.
  unfold calc_final_friction, py_max. cbv zeta.
  destruct (Rgt_dec 0.01 (weather_mu * tyre_factor + 0.05));
    destruct (Rgt_dec 0.01 (weather_mu * tyre_factor));
    repeat split; try intro; lra.
Qed.

(** ** Closed-form model, as the code computes it *)

(** The sign of the effective acceleration, in terms of the inputs. *)
Lemma effectiveAcceleration_nonpos_iff (mu slope_percent : R) :
  effectiveAcceleration mu slope_percent <= 0 <-> - slope_percent / 100 <= mu.
Proof.
  rewrite effectiveAcceleration_factor.
  pose proof (cos_atan_pos (Rabs slope_percent / 100)) as Hc.
  fold (gradeAngle slope_percent) in Hc.
  assert (HG : 0 < G * cos (gradeAngle slope_percent)) by (unfold G; nra).
  destruct (Rge_dec slope_percent 0) as [Hge | Hlt].
  - rewrite Rabs_right by assumption. split; intros H; nra.
  - rewrite Rabs_left by lra. split; intros H; nra.
Qed.


(** X5. Where the closed-form model returns finite distances
    ([mu < -slope_percent / 100]), its total distance grows strictly with
    the speed, for speeds and reaction time that are not negative. *)
Theorem closed_form_finite_monotone
    (speed1 speed2 mu slope_percent reaction_time : R) :
  mu < - slope_percent / 100 ->
  0 <= speed1 -> speed1 < speed2 -> 0 <= reaction_time ->
  exists total1 total2 : R,
    fst (fst (stopping_distance_simple_friction speed1 mu slope_percent
                reaction_time)) = Finite total1 /\
    fst (fst (stopping_distance_simple_friction speed2 mu slope_percent
                reaction_time)) = Finite total2 /\
    total1 < total2.
Proof.
  intros Hmu Hs1 Hs12 Hrt.
  rewrite !stopping_distance_simple_friction_eq. cbv zeta.
  pose proof (effectiveAcceleration_nonpos_iff mu slope_percent) as Hiff.
  destruct (Rle_dec (effectiveAcceleration mu slope_percent) 0) as [Hle | Hgt].
  { apply Hiff in Hle. lra. }
  simpl. do 2 eexists. split; [reflexivity |]. split; [reflexivity |].
  assert (Hpos : 0 < effectiveAcceleration mu slope_percent) by lra.
  assert (Hinv : 0 < / (2 * effectiveAcceleration mu slope_percent)).
  { apply Rinv_0_lt_compat. lra. }
  unfold convert_kmh_to_ms, Rdiv in *.
  set (k := / (2 * effectiveAcceleration mu slope_percent)) in *.
  assert (H1 : 0 <= speed1 * 1000 * / 3600) by lra.
  assert (H2 : speed1 * 1000 * / 3600 < speed2 * 1000 * / 3600) by lra.
  set (a := speed1 * 1000 * / 3600) in *.
  set (b := speed2 * 1000 * / 3600) in *.
  assert (a ^ 2 < b ^ 2) by nra.
  assert (a ^ 2 * k < b ^ 2 * k) by (apply Rmult_lt_compat_r; assumption).
  nra.
Qed.

(** 30 km/h against 60 km/h on an 8 % downhill with [mu = 0.05]. *)
Lemma closed_form_finite_monotone_witness :
  exists total1 total2 : R,
    fst (fst (stopping_distance_simple_friction 30 0.05 (-8) 1)) = Finite total1 /\
    fst (fst (stopping_distance_simple_friction 60 0.05 (-8) 1)) = Finite total2 /\
    total1 < total2.
Proof.
  apply (closed_form_finite_monotone 30 60 0.05 (-8) 1); lra.
Defined.

(** ** Numeric model: time, distance and exit *)

Section NumericBounds.

Variables (mu mass_kg cd frontal_area dt alpha : R) (is_uphill : bool).

Local Abbreviation body := (numeric_body mu mass_kg cd frontal_area dt alpha is_uphill).
Local Abbreviation loop := (numeric_loop mu mass_kg cd frontal_area dt alpha is_uphill).
Local Abbreviation vnext := (v_next mu mass_kg cd frontal_area dt alpha is_uphill).
Local Abbreviation base := (base_acc mu alpha is_uphill).

(** The braking time only grows, and stays below the cap plus one step. *)
Lemma numeric_loop_time (n : nat) :
  forall s r : nstate,
    0 <= dt ->
    loop n s = Some (Returns r) ->
    nt s <= nt r /\ (nt s < max_time + dt -> nt r < max_time + dt).
Proof.
  induction n as [| n IH]; intros s r Hdt H; simpl in H.
  - destruct (Rlt_dec (nt s) max_time); [discriminate |].
    injection H as <-. split; [lra | auto].
  - destruct (Rlt_dec (nt s) max_time) as [Hlt | Hge].
    + destruct (body s) as [s' | s' |] eqn:Eb; [| | discriminate].
      * destruct (numeric_body_inv _ _ _ _ _ _ _ s s' (or_introl Eb))
          as [_ [C | [C | C]]];
          destruct C as (_ & Eb' & _ & _ & Et);
          try (rewrite Eb in Eb'; discriminate).
        destruct (IH s' r Hdt H) as [H1 H2].
        rewrite Et in H1, H2. split; [lra |]. intros _. apply H2. lra.
      * injection H as <-.
        destruct (numeric_body_inv _ _ _ _ _ _ _ s s' (or_intror Eb))
          as [_ [C | [C | C]]];
          destruct C as (_ & Eb' & _ & _ & Et);
          try (rewrite Eb in Eb'; discriminate);
          rewrite Et; split; try intros _; lra.
    + injection H as <-. split; [lra | auto].
Qed.

(** How the loop can end: past the cap, on the stop threshold (with [v]
    set to 0), or on a step that would make the velocity negative (with [v]
    left as it was). *)
Lemma numeric_loop_exit (n : nat) :
  forall s r : nstate,
    loop n s = Some (Returns r) ->
    max_time <= nt r \/ nv r = 0 \/ vnext (nv r) < 0.
Proof.
  induction n as [| n IH]; intros s r H; simpl in H.
  - destruct (Rlt_dec (nt s) max_time); [discriminate |].
    injection H as <-. left. lra.
  - destruct (Rlt_dec (nt s) max_time) as [Hlt | Hge].
    + destruct (body s) as [s' | s' |] eqn:Eb; [| | discriminate].
      * exact (IH s' r H).
      * injection H as <-.
        destruct (numeric_body_inv _ _ _ _ _ _ _ s s' (or_intror Eb))
          as [_ [C | [C | C]]];
          destruct C as (Hc & Eb' & Ev & _ & _);
          try (rewrite Eb in Eb'; discriminate).
        -- right; right. rewrite Ev. exact Hc.
        -- right; left. exact Ev.
    + injection H as <-. left. lra.
Qed.

(** With [dt <= 0], a velocity above the threshold and forces that do not
    accelerate the car, the loop never ends. *)
Lemma numeric_loop_hangs (n : nat) :
  forall s : nstate,
    0 < mass_kg -> 0 <= cd -> 0 <= frontal_area -> base <= 0 ->
    dt <= 0 -> 0.01 < nv s -> nt s <= 0 ->
    loop n s = None.
Proof.
  induction n as [| n IH]; intros s Hm Hcd Ha Hb Hdt Hv Ht.
  - apply numeric_loop_out_of_fuel. unfold max_time. lra.
  - rewrite numeric_loop_step by (unfold max_time; lra).
    rewrite numeric_body_eq by lra.
    assert (Hge : nv s <= vnext (nv s)).
    { rewrite vnext_eq.
      pose proof (K_nonneg mass_kg cd frontal_area Hm Hcd Ha) as HK.
      assert (0 <= drag_factor mass_kg cd frontal_area * (nv s * nv s))
        by (apply Rmult_le_pos; [assumption | nra]).
      nra. }
    destruct (Rlt_dec (vnext (nv s)) 0); [lra |].
    destruct (Rle_dec (vnext (nv s)) 0.01); [lra |].
    apply IH; simpl; try assumption; lra.
Qed.

(** The energy bound: [2 c x + v ^ 2] does not grow along the loop, where
    [c = - base >= 0] is the deceleration of friction and slope alone; the
    last, clamped step adds at most [(c dt) ^ 2 / 4]. *)
Lemma numeric_loop_energy (n : nat) :
  forall (s r : nstate) (E : R),
    0 < mass_kg -> 0 <= cd -> 0 <= frontal_area -> 0 <= dt -> base <= 0 ->
    0 <= nv s ->
    2 * (- base) * nx s + nv s ^ 2 <= E ->
    loop n s = Some (Returns r) ->
    2 * (- base) * nx r <= E + (base * dt) ^ 2 / 4.
Proof.
  induction n as [| n IH]; intros s r E Hm Hcd Ha Hdt Hb Hv HE H.
  - simpl in H. destruct (Rlt_dec (nt s) max_time); [discriminate |].
    injection H as <-. nra.
  - simpl in H. destruct (Rlt_dec (nt s) max_time) as [Hlt | Hge];
      [| injection H as <-; nra].
    rewrite numeric_body_eq in H by lra.
    pose proof (K_nonneg mass_kg cd frontal_area Hm Hcd Ha) as HK.
    assert (Hdrag : 0 <= drag_factor mass_kg cd frontal_area * (nv s * nv s))
      by (apply Rmult_le_pos; [assumption | nra]).
    pose proof (vnext_eq mu mass_kg cd frontal_area dt alpha is_uphill (nv s))
      as Ev.
    set (c := - base) in *.
    assert (Hc : 0 <= c) by (unfold c; lra).
    assert (Hdrop : c * dt <= nv s - vnext (nv s)).
    { rewrite Ev. unfold c. nra. }
    destruct (Rlt_dec (vnext (nv s)) 0) as [Hneg | Hnn].
    + injection H as <-. simpl.
      assert (Hsq : 0 <= (nv s - c * dt / 2) ^ 2) by apply pow2_ge_0.
      unfold c in *. nra.
    + assert (Hstep : c * dt * (nv s + vnext (nv s))
                      <= nv s ^ 2 - vnext (nv s) ^ 2).
      { replace (nv s ^ 2 - vnext (nv s) ^ 2)
          with ((nv s - vnext (nv s)) * (nv s + vnext (nv s))) by ring.
        apply Rmult_le_compat_r; lra. }
      destruct (Rle_dec (vnext (nv s)) 0.01) as [Hle | Hgt].
      * injection H as <-. simpl.
        assert (0 <= vnext (nv s) ^ 2) by apply pow2_ge_0.
        assert (0 <= (base * dt) ^ 2) by apply pow2_ge_0.
        unfold c in *. nra.
      * apply (IH _ r E Hm Hcd Ha Hdt Hb) in H; [exact H | simpl; lra |].
        simpl. unfold c in *. nra.
Qed.

End NumericBounds.

(** X6. For [dt > 0], the total time returned by the numeric model lies
    between the reaction time and the reaction time plus the 300 s cap plus
    one step. *)
Theorem numeric_total_time_bounds
    (speed_kmh mu mass_kg cd frontal_area slope_percent reaction_time dt : R) :
  0 < dt ->
  forall (fuel : nat) (r : numeric_result),
    stopping_distance_numeric_drag fuel speed_kmh mu mass_kg cd frontal_area
      slope_percent reaction_time dt = Some (Returns r) ->
    reaction_time <= total_time r < reaction_time + max_time + dt.
Proof.
  intros Hdt fuel r H.
  destruct (numeric_result_inv _ _ _ _ _ _ _ _ _ _ H)
    as (s & Hl & _ & _ & _ & Et & _).
  assert (Hdt0 : 0 <= dt) by lra.
  destruct (numeric_loop_time _ _ _ _ _ _ _ fuel
              (mk_nstate (convert_kmh_to_ms speed_kmh) 0 0) s Hdt0 Hl)
    as [H1 H2].
  simpl in H1, H2. rewrite Et.
  assert (Hcap : 0 < max_time + dt) by (unfold max_time; lra).
  specialize (H2 Hcap). lra.
Qed.

(** 60 km/h, [mu = 0.7], a 1300 kg car, flat road, 1 s reaction time, the
    default step. *)
Lemma numeric_total_time_bounds_witness :
  exists (fuel : nat) (r : numeric_result),
    stopping_distance_numeric_drag fuel 60 0.7 1300 0.29 2.2 0 1 0.01
      = Some (Returns r) /\
    1 <= total_time r < 1 + max_time + 0.01.
Proof.
  assert (Hdt : 0 < 0.01) by lra.
  assert (Hm : (1300 : R) <> 0) by lra.
  destruct (numeric_returns 60 0.7 1300 0.29 2.2 0 1 0.01 Hdt Hm)
    as (fuel & r & H).
  exists fuel, r. split; [exact H |].
  exact (numeric_total_time_bounds 60 0.7 1300 0.29 2.2 0 1 0.01 Hdt fuel r H).
Defined.

(** X7. When friction and slope alone decelerate the car
    ([effectiveAcceleration < 0]), the braking distance returned by the
    numeric model is at most the friction-only distance
    [speedMs^2 / (2 |a_eff|)] plus [|a_eff| dt^2 / 8]: drag only shortens
    the distance, and the fixed step adds at most the second term. *)
Theorem numeric_braking_distance_bound
    (speed_kmh mu mass_kg cd frontal_area slope_percent reaction_time dt : R) :
  0 <= speed_kmh -> 0 < mass_kg -> 0 <= cd -> 0 <= frontal_area -> 0 <= dt ->
  effectiveAcceleration mu slope_percent < 0 ->
  forall (fuel : nat) (r : numeric_result),
    stopping_distance_numeric_drag fuel speed_kmh mu mass_kg cd frontal_area
      slope_percent reaction_time dt = Some (Returns r) ->
    braking_dist r
    <= convert_kmh_to_ms speed_kmh ^ 2
       / (2 * - effectiveAcceleration mu slope_percent)
       + - effectiveAcceleration mu slope_percent * dt ^ 2 / 8.
Proof.
  intros Hs Hm Hcd Ha Hdt Heff fuel r H.
  destruct (numeric_result_inv _ _ _ _ _ _ _ _ _ _ H)
    as (s & Hl & _ & Eb & _).
  rewrite Eb.
  assert (Hv : 0 <= convert_kmh_to_ms speed_kmh)
    by (unfold convert_kmh_to_ms; lra).
  pose proof (numeric_loop_energy mu mass_kg cd frontal_area dt
                (atan (Rabs slope_percent / 100))
                (if Rge_dec slope_percent 0 then true else false) fuel
                (mk_nstate (convert_kmh_to_ms speed_kmh) 0 0) s
                (convert_kmh_to_ms speed_kmh ^ 2) Hm Hcd Ha Hdt) as Hen.
  unfold base_acc in Hen. rewrite base_acc_spec in Hen.
  simpl nv in Hen. simpl nx in Hen.
  assert (Hle : effectiveAcceleration mu slope_percent <= 0) by lra.
  assert (H0 : 2 * - effectiveAcceleration mu slope_percent * 0
               + convert_kmh_to_ms speed_kmh ^ 2
               <= convert_kmh_to_ms speed_kmh ^ 2) by lra.
  specialize (Hen Hle Hv H0 Hl).
  set (c := - effectiveAcceleration mu slope_percent) in *.
  set (v := convert_kmh_to_ms speed_kmh) in *.
  assert (Hc : 0 < c) by (unfold c; lra).
  apply Rmult_le_reg_l with (2 * c); [lra |].
  replace (2 * c * (v ^ 2 / (2 * c) + c * dt ^ 2 / 8))
    with (v ^ 2 + (c * dt) ^ 2 / 4) by (field; lra).
  replace ((c * dt) ^ 2) with ((effectiveAcceleration mu slope_percent * dt) ^ 2)
    by (unfold c; ring).
  exact Hen.
Qed.

Lemma numeric_braking_distance_bound_witness :
  exists (fuel : nat) (r : numeric_result),
    stopping_distance_numeric_drag fuel 60 0.7 1300 0.29 2.2 0 1 0.01
      = Some (Returns r) /\
    braking_dist r
    <= convert_kmh_to_ms 60 ^ 2 / (2 * - effectiveAcceleration 0.7 0)
       + - effectiveAcceleration 0.7 0 * 0.01 ^ 2 / 8.
Proof.
  assert (Hdt : 0 < 0.01) by lra.
  assert (Hm : (1300 : R) <> 0) by lra.
  destruct (numeric_returns 60 0.7 1300 0.29 2.2 0 1 0.01 Hdt Hm)
    as (fuel & r & H).
  exists fuel, r. split; [exact H |].
  refine (numeric_braking_distance_bound 60 0.7 1300 0.29 2.2 0 1 0.01
            _ _ _ _ _ _ fuel r H); try lra.
  rewrite effectiveAcceleration_flat. unfold G. lra.
Defined.

(** X8. The velocity returned by the numeric model is 0, or so small that
    one more step would make it negative ([v + a dt < 0] with the
    acceleration [a] at that velocity), unless the braking time reached the
    300 s cap. *)
Theorem numeric_final_velocity_small
    (speed_kmh mu mass_kg cd frontal_area slope_percent reaction_time dt : R)
    (fuel : nat) (r : numeric_result) :
  stopping_distance_numeric_drag fuel speed_kmh mu mass_kg cd frontal_area
    slope_percent reaction_time dt = Some (Returns r) ->
  final_v r = 0
  \/ final_v r
     + (effectiveAcceleration mu slope_percent
        - dragAcceleration cd frontal_area mass_kg (final_v r)) * dt < 0
  \/ reaction_time + max_time <= total_time r.
Proof.
  intros H.
  destruct (numeric_result_inv _ _ _ _ _ _ _ _ _ _ H)
    as (s & Hl & _ & _ & _ & Et & Ev).
  rewrite Et, Ev.
  destruct (numeric_loop_exit _ _ _ _ _ _ _ fuel _ s Hl) as [Hc | [Hz | Hn]].
  - right; right. lra.
  - left. exact Hz.
  - right; left. unfold v_next in Hn. rewrite net_acc_spec in Hn. exact Hn.
Qed.

Lemma numeric_final_velocity_small_witness :
  exists (fuel : nat) (r : numeric_result),
    stopping_distance_numeric_drag fuel 60 0.7 1300 0.29 2.2 0 1 0.01
      = Some (Returns r) /\
    (final_v r = 0
     \/ final_v r
        + (effectiveAcceleration 0.7 0
           - dragAcceleration 0.29 2.2 1300 (final_v r)) * 0.01 < 0
     \/ 1 + max_time <= total_time r).
Proof.
  assert (Hdt : 0 < 0.01) by lra.
  assert (Hm : (1300 : R) <> 0) by lra.
  destruct (numeric_returns 60 0.7 1300 0.29 2.2 0 1 0.01 Hdt Hm)
    as (fuel & r & H).
  exists fuel, r. split; [exact H |].
  exact (numeric_final_velocity_small 60 0.7 1300 0.29 2.2 0 1 0.01 fuel r H).
Defined.

(** X9. With a time step [dt <= 0], an initial speed above 0.01 m/s and
    forces that do not accelerate the car, the numeric model never returns:
    its loop runs out of every fuel. *)
Theorem numeric_nonpositive_step_never_returns
    (speed_kmh mu mass_kg cd frontal_area slope_percent reaction_time dt : R) :
  0 < mass_kg -> 0 <= cd -> 0 <= frontal_area ->
  effectiveAcceleration mu slope_percent <= 0 ->
  dt <= 0 -> 0.01 < convert_kmh_to_ms speed_kmh ->
  forall fuel : nat,
    stopping_distance_numeric_drag fuel speed_kmh mu mass_kg cd frontal_area
      slope_percent reaction_time dt = None.
Proof.
  intros Hm Hcd Ha Heff Hdt Hv fuel.
  unfold stopping_distance_numeric_drag. cbv zeta.
  assert (Hb : base_acc mu (atan (Rabs slope_percent / 100))
                 (if Rge_dec slope_percent 0 then true else false) <= 0).
  { unfold base_acc. rewrite base_acc_spec. exact Heff. }
  rewrite numeric_loop_hangs; try assumption; try reflexivity; try (simpl; lra).
Qed.

(** 60 km/h with [dt = 0]: no result within 1000 iterations. *)
Lemma numeric_nonpositive_step_never_returns_witness :
  stopping_distance_numeric_drag 1000 60 0.7 1300 0.29 2.2 0 1 0 = None.
Proof.
  apply (numeric_nonpositive_step_never_returns 60 0.7 1300 0.29 2.2 0 1 0);
    try lra.
  - rewrite effectiveAcceleration_flat. unfold G. lra.
  - unfold convert_kmh_to_ms. lra.
Defined.

(** X10. From rest, when friction and slope do not accelerate the car, the
    numeric model returns at its first iteration with braking distance 0,
    total distance 0 and final velocity 0; the total time is the reaction
    time, or one step more. *)
Theorem numeric_from_rest
    (mu mass_kg cd frontal_area slope_percent reaction_time dt : R) (fuel : nat) :
  mass_kg <> 0 -> 0 <= dt ->
  effectiveAcceleration mu slope_percent <= 0 ->
  exists r : numeric_result,
    stopping_distance_numeric_drag (S fuel) 0 mu mass_kg cd frontal_area
      slope_percent reaction_time dt = Some (Returns r) /\
    braking_dist r = 0 /\ total_dist r = 0 /\ final_v r = 0 /\
    (total_time r = reaction_time \/ total_time r = reaction_time + dt).
Proof.
  intros Hm Hdt Heff.
  unfold stopping_distance_numeric_drag. cbv zeta.
  replace (convert_kmh_to_ms 0) with 0 by (unfold convert_kmh_to_ms; lra).
  rewrite numeric_loop_step by (simpl; unfold max_time; lra).
  rewrite numeric_body_eq by assumption.
  simpl nv. simpl nx. simpl nt.
  assert (Ev : v_next mu mass_kg cd frontal_area dt
                 (atan (Rabs slope_percent / 100))
                 (if Rge_dec slope_percent 0 then true else false) 0
               = effectiveAcceleration mu slope_percent * dt).
  { unfold v_next. rewrite net_acc_spec. unfold dragAcceleration, Rdiv. ring. }
  rewrite Ev.
  assert (Hle : effectiveAcceleration mu slope_percent * dt <= 0) by nra.
  destruct (Rlt_dec (effectiveAcceleration mu slope_percent * dt) 0).
  - eexists. split; [reflexivity |]. simpl. repeat split; lra.
  - destruct (Rle_dec (effectiveAcceleration mu slope_percent * dt) 0.01);
      [| lra].
    eexists. split; [reflexivity |]. simpl.
    replace (effectiveAcceleration mu slope_percent * dt) with 0 by lra.
    repeat split; lra.
Qed.

Lemma numeric_from_rest_witness :
  exists r : numeric_result,
    stopping_distance_numeric_drag 1 0 0.7 1300 0.29 2.2 0 1 0.01
      = Some (Returns r) /\
    braking_dist r = 0 /\ total_dist r = 0 /\ final_v r = 0 /\
    (total_time r = 1 \/ total_time r = 1 + 0.01).
Proof.
  apply (numeric_from_rest 0.7 1300 0.29 2.2 0 1 0.01 0); try lra.
  rewrite effectiveAcceleration_flat. unfold G. lra.
Defined.

(** ** Profile sampler: what the two lists hold *)

Lemma Sorted_Rle_snoc (l : list R) (x : R) :
  Sorted Rle l -> Forall (fun y => y <= x) l -> Sorted Rle (l ++ [x]).
Proof.
  intros Hs Hall. induction l as [| a l IH]; simpl.
  - repeat constructor.
  - inversion Hs as [| ? ? Hs' Hhd]; subst.
    inversion Hall as [| ? ? Ha Hall']; subst.
    constructor; [apply IH; assumption |].
    destruct l as [| b l']; simpl; constructor.
    + exact Ha.
    + inversion Hhd; subst. assumption.
Qed.

Section ProfileInvariants.

Variables (mu mass_kg cd frontal_area dt alpha reaction_time : R)
          (is_uphill : bool).

Local Abbreviation rloop := (reaction_loop dt reaction_time).
Local Abbreviation bbody :=
  (braking_body mu mass_kg cd frontal_area dt alpha is_uphill).
Local Abbreviation bloop :=
  (braking_loop mu mass_kg cd frontal_area dt alpha reaction_time is_uphill).
Local Abbreviation vcl :=
  (v_clamped mu mass_kg cd frontal_area dt alpha is_uphill).
Local Abbreviation bpost :=
  (braking_post mu mass_kg cd frontal_area dt alpha is_uphill).

(** The reaction phase, sample by sample: [k] iterations from the state [s]
    record the distances [x + v j dt] for [j < k], all at the speed [v], and
    leave the loop at time [t + k dt], past the reaction time. *)
Lemma reaction_loop_trace (n : nat) :
  forall s r : pstate,
    rloop n s = Some r ->
    exists k : nat,
      pt r = pt s + INR k * dt /\
      px r = px s + pv s * (INR k * dt) /\
      pv r = pv s /\
      distance_vals r =
        distance_vals s
        ++ map (fun j => px s + pv s * (INR j * dt)) (seq 0 k) /\
      speed_vals_kmh r =
        speed_vals_kmh s ++ repeat (convert_ms_to_kmh (pv s)) k /\
      reaction_time < pt r /\
      (0 <= dt -> pt s <= reaction_time + dt -> pt r <= reaction_time + dt).
Proof.
  induction n as [| n IH]; intros s r H; simpl in H.
  - destruct (Rle_dec (pt s) reaction_time); [discriminate |].
    injection H as <-. exists O. simpl.
    rewrite !app_nil_r. repeat split; try lra; intros; lra.
  - destruct (Rle_dec (pt s) reaction_time) as [Hle | Hgt].
    + destruct (IH _ _ H) as (k & Et & Ex & Ev & Ed & Es & Hout & Hin).
      simpl in Et, Ex, Ev, Ed, Es, Hin.
      exists (S k). rewrite S_INR.
      split; [lra |]. split; [rewrite Ex; ring |]. split; [exact Ev |].
      split; [| split; [| split]].
      * rewrite Ed, <- app_assoc. f_equal. simpl. f_equal; [simpl; lra |].
        rewrite <- seq_shift, map_map.
        apply map_ext. intros j. rewrite S_INR. ring.
      * rewrite Es, <- app_assoc. reflexivity.
      * exact Hout.
      * intros Hdt _. apply Hin; [assumption | lra].
    + injection H as <-. exists O. simpl.
      rewrite !app_nil_r. repeat split; try lra; intros; lra.
Qed.

(** With [dt <= 0] and a reaction time that [t] has not passed, the
    reaction loop never ends. *)
Lemma reaction_loop_hangs (n : nat) :
  forall s : pstate,
    dt <= 0 -> pt s <= reaction_time -> rloop n s = None.
Proof.
  induction n as [| n IH]; intros s Hdt Ht; simpl;
    destruct (Rle_dec (pt s) reaction_time) as [_ | Hn];
    try contradiction; try reflexivity.
  apply IH; [assumption | simpl; lra].
Qed.

(** The braking phase appends as many distances as speeds, and the first
    distance it appends is the distance at which it starts. *)
Lemma braking_loop_appends_both (n : nat) :
  forall s r : pstate,
    bloop n s = Some (Returns r) ->
    exists bd bs : list R,
      distance_vals r = distance_vals s ++ bd /\
      speed_vals_kmh r = speed_vals_kmh s ++ bs /\
      length bd = length bs /\
      (forall x : R, hd_error bd = Some x -> x = px s).
Proof.
  induction n as [| n IH]; intros s r H; simpl in H.
  - destruct (Rle_dec (pt s) (reaction_time + max_time)); [discriminate |].
    injection H as <-. exists [], []. rewrite !app_nil_r.
    repeat split; auto. discriminate.
  - destruct (Rle_dec (pt s) (reaction_time + max_time)).
    + destruct (bbody s) as [s' | s' |] eqn:Eb; [| | discriminate].
      * destruct (braking_body_inv _ _ _ _ _ _ _ s s' (or_introl Eb))
          as (_ & -> & _).
        destruct (IH _ _ H) as (bd & bs & Ed & Es & El & _).
        simpl in Ed, Es.
        exists (px s :: bd), (convert_ms_to_kmh (vcl (pv s)) :: bs).
        rewrite Ed, Es, <- !app_assoc. simpl.
        repeat split; auto. intros x Hx. congruence.
      * destruct (braking_body_inv _ _ _ _ _ _ _ s s' (or_intror Eb))
          as (_ & -> & _).
        injection H as <-. simpl.
        exists [px s], [convert_ms_to_kmh (vcl (pv s))].
        repeat split; auto. intros x Hx. simpl in Hx. congruence.
    + injection H as <-. exists [], []. rewrite !app_nil_r.
      repeat split; auto. discriminate.
Qed.

Lemma profile_inv_record (s : pstate) (x' v' t' : R) :
  profile_inv s -> 0 <= v' -> px s <= x' ->
  profile_inv (mk_pstate x' v' t' (distance_vals s ++ [px s])
                 (speed_vals_kmh s ++ [convert_ms_to_kmh v'])).
Proof.
  intros (Hv & Hs & Hd & Hk) Hv' Hx. unfold profile_inv. simpl.
  split; [exact Hv' |]. split; [apply Sorted_Rle_snoc; assumption |].
  split.
  - apply Forall_app. split.
    + eapply Forall_impl; [| exact Hd]. intros d Hdle. simpl in Hdle. lra.
    + constructor; [exact Hx | constructor].
  - apply Forall_app. split; [exact Hk |].
    constructor; [unfold convert_ms_to_kmh; lra | constructor].
Qed.

Lemma vcl_nonneg (v : R) : 0 <= vcl v.
Proof.
  unfold v_clamped.
  destruct (Rlt_dec (v_next mu mass_kg cd frontal_area dt alpha is_uphill v) 0);
    lra.
Qed.

Lemma reaction_loop_inv (n : nat) :
  forall s r : pstate,
    0 <= dt -> profile_inv s -> rloop n s = Some r -> profile_inv r.
Proof.
  induction n as [| n IH]; intros s r Hdt Hinv H; simpl in H.
  - destruct (Rle_dec (pt s) reaction_time); [discriminate |].
    injection H as <-. exact Hinv.
  - destruct (Rle_dec (pt s) reaction_time).
    + apply (IH _ r Hdt) in H; [exact H |].
      unfold reaction_body.
      assert (Hv : 0 <= pv s) by apply Hinv.
      apply profile_inv_record; [exact Hinv | exact Hv | nra].
    + injection H as <-. exact Hinv.
Qed.

Lemma braking_post_inv (s : pstate) :
  0 <= dt -> profile_inv s -> profile_inv (bpost s).
Proof.
  intros Hdt Hinv. unfold braking_post.
  assert (Hv : 0 <= pv s) by apply Hinv.
  pose proof (vcl_nonneg (pv s)) as Hc.
  apply profile_inv_record; [exact Hinv | exact Hc | nra].
Qed.

Lemma braking_loop_inv (n : nat) :
  forall s r : pstate,
    0 <= dt -> profile_inv s -> bloop n s = Some (Returns r) -> profile_inv r.
Proof.
  induction n as [| n IH]; intros s r Hdt Hinv H; simpl in H.
  - destruct (Rle_dec (pt s) (reaction_time + max_time)); [discriminate |].
    injection H as <-. exact Hinv.
  - destruct (Rle_dec (pt s) (reaction_time + max_time)).
    + destruct (bbody s) as [s' | s' |] eqn:Eb; [| | discriminate].
      * destruct (braking_body_inv _ _ _ _ _ _ _ s s' (or_introl Eb))
          as (_ & -> & _).
        apply (IH _ r Hdt) in H; [exact H |].
        apply braking_post_inv; assumption.
      * destruct (braking_body_inv _ _ _ _ _ _ _ s s' (or_intror Eb))
          as (_ & -> & _).
        injection H as <-. apply braking_post_inv; assumption.
    + injection H as <-. exact Hinv.
Qed.

End ProfileInvariants.

Lemma profile_run_returns_inv (fuel1 fuel2 : nat)
    (speed_kmh mu mass_kg cd frontal_area slope_percent reaction_time dt : R)
    (ds ss : list R) :
  get_distance_speed_profile fuel1 fuel2 speed_kmh mu mass_kg cd frontal_area
    slope_percent reaction_time dt = Some (Returns (ds, ss)) ->
  exists sr r : pstate,
    reaction_loop dt reaction_time fuel1
      (mk_pstate 0 (convert_kmh_to_ms speed_kmh) 0 [] []) = Some sr /\
    braking_loop mu mass_kg cd frontal_area dt (atan (Rabs slope_percent / 100))
      reaction_time (if Rge_dec slope_percent 0 then true else false)
      fuel2 sr = Some (Returns r) /\
    ds = distance_vals r /\ ss = speed_vals_kmh r.
Proof.
  intros H.
  destruct (profile_result_inv _ _ _ _ _ _ _ _ _ _ _ _ H) as (r & Hrun & Ed & Es).
  destruct (profile_run_inv _ _ _ _ _ _ _ _ _ _ _ Hrun) as (sr & Hr & Hb & _).
  exists sr, r. auto.
Qed.

(** What the sampler returns, reaction phase first: [k] samples at the input
    speed, at the distances [speedMs j dt] for [j < k], then the samples of
    the braking phase, as many distances as speeds, the first of them at
    the distance [speedMs k dt]. *)
Lemma profile_shape (fuel1 fuel2 : nat)
    (speed_kmh mu mass_kg cd frontal_area slope_percent reaction_time dt : R)
    (ds ss : list R) :
  get_distance_speed_profile fuel1 fuel2 speed_kmh mu mass_kg cd frontal_area
    slope_percent reaction_time dt = Some (Returns (ds, ss)) ->
  exists (k : nat) (bd bs : list R),
    ds = map (fun j => convert_kmh_to_ms speed_kmh * (INR j * dt)) (seq 0 k)
         ++ bd /\
    ss = repeat speed_kmh k ++ bs /\
    List.length bd = List.length bs /\
    (forall x : R,
       hd_error bd = Some x -> x = convert_kmh_to_ms speed_kmh * (INR k * dt)) /\
    reaction_time < INR k * dt /\
    (0 <= dt -> 0 <= reaction_time -> INR k * dt <= reaction_time + dt).
Proof.
  intros H.
  destruct (profile_run_returns_inv _ _ _ _ _ _ _ _ _ _ _ _ H)
    as (sr & r & Hr & Hb & -> & ->).
  destruct (reaction_loop_trace _ _ _ _ _ Hr)
    as (k & Et & Ex & Ev & Ed & Es & Hout & Hin).
  simpl in Et, Ex, Ev, Ed, Es, Hin.
  destruct (braking_loop_appends_both _ _ _ _ _ _ _ _ _ _ _ Hb)
    as (bd & bs & Ed' & Es' & El & Hhd).
  exists k, bd, bs.
  split; [| split; [| split; [| split; [| split]]]].
  - rewrite Ed', Ed. f_equal. apply map_ext. intros j. ring.
  - rewrite Es', Es.
    rewrite convert_kmh_ms_kmh. reflexivity.
  - exact El.
  - intros x Hx. rewrite (Hhd x Hx), Ex. ring.
  - lra.
  - intros Hdt Hrt.
    assert (pt sr <= reaction_time + dt) by (apply Hin; lra). lra.
Qed.

(** X11. The two lists that the sampler returns have the same length, and
    when the reaction time is not negative they are not empty: the first
    sample is the distance 0 at the input speed. *)
Theorem profile_lists_parallel (fuel1 fuel2 : nat)
    (speed_kmh mu mass_kg cd frontal_area slope_percent reaction_time dt : R)
    (ds ss : list R) :
  get_distance_speed_profile fuel1 fuel2 speed_kmh mu mass_kg cd frontal_area
    slope_percent reaction_time dt = Some (Returns (ds, ss)) ->
  List.length ds = List.length ss /\
  (0 <= reaction_time ->
   exists ds' ss' : list R, ds = 0 :: ds' /\ ss = speed_kmh :: ss').
Proof.
  intros H.
  destruct (profile_shape _ _ _ _ _ _ _ _ _ _ _ _ H)
    as (k & bd & bs & -> & -> & El & _ & Hout & _).
  split.
  - rewrite !length_app, length_map, length_seq, repeat_length, El.
    reflexivity.
  - intros Hrt. destruct k as [| k]; [simpl in Hout; lra |].
    simpl. do 2 eexists. split; [| reflexivity].
    f_equal. simpl. ring.
Qed.

(** The sampler's default step, 60 km/h, 1 s of reaction time. *)
Lemma profile_lists_parallel_witness :
  exists (fuel1 fuel2 : nat) (ds ss : list R),
    get_distance_speed_profile fuel1 fuel2 60 0.7 1300 0.29 2.2 0 1 0.05
      = Some (Returns (ds, ss)) /\
    List.length ds = List.length ss /\
    exists ds' ss' : list R, ds = 0 :: ds' /\ ss = 60 :: ss'.
Proof.
  assert (Hdt : 0 < 0.05) by lra.
  assert (Hm : (1300 : R) <> 0) by lra.
  destruct (profile_returns 60 0.7 1300 0.29 2.2 0 1 0.05 Hdt Hm)
    as (fuel1 & fuel2 & ds & ss & H).
  exists fuel1, fuel2, ds, ss. split; [exact H |].
  destruct (profile_lists_parallel fuel1 fuel2 60 0.7 1300 0.29 2.2 0 1 0.05
              ds ss H) as [Hlen Hfirst].
  split; [exact Hlen |]. apply Hfirst. lra.
Defined.



(** X13. For a speed and a step that are not negative, whatever the
    friction, the slope and the vehicle: the distances that the sampler
    returns are in non-decreasing order and no speed it returns is
    negative. *)
Theorem profile_distances_sorted
    (speed_kmh mu mass_kg cd frontal_area slope_percent reaction_time dt : R) :
  0 <= speed_kmh -> 0 <= dt ->
  forall (fuel1 fuel2 : nat) (ds ss : list R),
    get_distance_speed_profile fuel1 fuel2 speed_kmh mu mass_kg cd
      frontal_area slope_percent reaction_time dt = Some (Returns (ds, ss)) ->
    Sorted Rle ds /\ Forall (fun v => 0 <= v) ss.
Proof.
  intros Hs Hdt fuel1 fuel2 ds ss H.
  destruct (profile_run_returns_inv _ _ _ _ _ _ _ _ _ _ _ _ H)
    as (sr & r & Hr & Hb & -> & ->).
  assert (Hinit : profile_inv (mk_pstate 0 (convert_kmh_to_ms speed_kmh) 0 [] [])).
  { unfold profile_inv. simpl.
    split; [unfold convert_kmh_to_ms; lra |].
    split; [constructor |]. split; constructor. }
  pose proof (reaction_loop_inv _ _ _ _ _ Hdt Hinit Hr) as Hsr.
  pose proof (braking_loop_inv _ _ _ _ _ _ _ _ _ _ _ Hdt Hsr Hb)
    as (_ & Hsorted & _ & Hpos).
  split; assumption.
Qed.

(** An 8 % downhill that friction cannot hold ([mu = 0.05]). *)
Lemma profile_distances_sorted_witness :
  exists (fuel1 fuel2 : nat) (ds ss : list R),
    get_distance_speed_profile fuel1 fuel2 36 0.05 1300 0.29 2.2 (-8) 1 0.05
      = Some (Returns (ds, ss)) /\
    Sorted Rle ds /\ Forall (fun v => 0 <= v) ss.
Proof.
  assert (Hdt : 0 < 0.05) by lra.
  assert (Hm : (1300 : R) <> 0) by lra.
  destruct (profile_returns 36 0.05 1300 0.29 2.2 (-8) 1 0.05 Hdt Hm)
    as (fuel1 & fuel2 & ds & ss & H).
  exists fuel1, fuel2, ds, ss. split; [exact H |].
  refine (profile_distances_sorted 36 0.05 1300 0.29 2.2 (-8) 1 0.05 _ _
            fuel1 fuel2 ds ss H); lra.
Defined.

(** X14. With a time step [dt <= 0] and a reaction time that is not
    negative, the sampler never returns: its reaction loop, whose only exit
    is [t > reaction_time], runs out of every fuel. *)
Theorem profile_nonpositive_step_never_returns
    (speed_kmh mu mass_kg cd frontal_area slope_percent reaction_time dt : R) :
  dt <= 0 -> 0 <= reaction_time ->
  forall fuel1 fuel2 : nat,
    get_distance_speed_profile fuel1 fuel2 speed_kmh mu mass_kg cd
      frontal_area slope_percent reaction_time dt = None.
Proof.
  intros Hdt Hrt fuel1 fuel2.
  unfold get_distance_speed_profile, profile_run. cbv zeta.
  rewrite reaction_loop_hangs; [reflexivity | assumption | simpl; lra].
Qed.

Lemma profile_nonpositive_step_never_returns_witness :
  get_distance_speed_profile 1000 1000 60 0.7 1300 0.29 2.2 0 1 0 = None.
Proof.
  apply (profile_nonpositive_step_never_returns 60 0.7 1300 0.29 2.2 0 1 0);
    lra.
Defined.

(** X15. A mass of zero makes both integrators raise [ZeroDivisionError]:
    the numeric model on every input, at its first iteration; the sampler
    once its reaction phase is over, when [0 < dt <= 300] and the reaction
    time is not negative. *)
Theorem zero_mass_raises
    (speed_kmh mu cd frontal_area slope_percent reaction_time dt : R) :
  (forall fuel : nat,
     stopping_distance_numeric_drag (S fuel) speed_kmh mu 0 cd frontal_area
       slope_percent reaction_time dt = Some ZeroDivisionError)
  /\
  (0 < dt -> dt <= max_time -> 0 <= reaction_time ->
   exists fuel1 : nat,
     forall fuel2 : nat,
       get_distance_speed_profile fuel1 (S fuel2) speed_kmh mu 0 cd
         frontal_area slope_percent reaction_time dt = Some ZeroDivisionError).
Proof.
  split.
  - intros fuel. unfold stopping_distance_numeric_drag. cbv zeta.
    rewrite numeric_loop_step by (simpl; unfold max_time; lra).
    rewrite numeric_body_raise by reflexivity. reflexivity.
  - intros Hdt Hcap Hrt.
    destruct (cap_iterations reaction_time dt Hrt Hdt) as [Hn _].
    set (n := Z.to_nat (up (reaction_time / dt))) in *.
    destruct (reaction_loop_fuel_enough dt reaction_time n
                (mk_pstate 0 (convert_kmh_to_ms speed_kmh) 0 [] [])) as [sr Hsr].
    { simpl. lra. }
    exists n. intros fuel2.
    unfold get_distance_speed_profile, profile_run. cbv zeta. rewrite Hsr.
    destruct (reaction_loop_trace _ _ _ _ _ Hsr) as (k & _ & _ & _ & _ & _ & _ & Hin).
    simpl in Hin.
    assert (Ht : pt sr <= reaction_time + max_time).
    { assert (pt sr <= reaction_time + dt) by (apply Hin; lra). lra. }
    simpl.
    destruct (Rle_dec (pt sr) (reaction_time + max_time)); [| contradiction].
    rewrite braking_body_raise by reflexivity. reflexivity.
Qed.

(** ** The menus and the pure steps of [main] *)

Ltac menu_cases c :=
  repeat match goal with
         | |- context [String.eqb c ?k] =>
             let E := fresh "E" in
             destruct (String.eqb c k) eqn:E;
             [apply String.eqb_eq in E | apply String.eqb_neq in E]
         end.

(** Whatever line is read, a weather entry is selected: ice for ["4"] and
    one of the three others for any other line. *)
Lemma select_weather_cases (w_choice : string) :
  exists (desc : string) (base_mu : R),
    select_weather w_choice = Some (desc, base_mu) /\
    ((w_choice = "4"%string /\ base_mu = 0.10) \/
     (w_choice <> "4"%string /\
      (base_mu = 0.85 \/ base_mu = 0.55 \/ base_mu = 0.20))).
Proof.
  unfold select_weather, dict_mem, WEATHER_CONDITIONS. simpl.
  menu_cases w_choice; subst; do 2 eexists; (split; [reflexivity |]);
    try (left; split; [reflexivity | reflexivity]);
    right; (split; [congruence |]); auto.
Qed.

Lemma select_tyre_cases (tyre_choice : string) :
  exists (desc : string) (tyre_factor : R),
    select_tyre tyre_choice = Some (desc, tyre_factor) /\
    ((tyre_choice = "3"%string /\ tyre_factor = 0.5) \/
     (tyre_choice <> "3"%string /\ (tyre_factor = 1.0 \/ tyre_factor = 0.8))).
Proof.
  unfold select_tyre, dict_mem, TYRE_QUALITY. simpl.
  menu_cases tyre_choice; subst; do 2 eexists; (split; [reflexivity |]);
    try (left; split; [reflexivity | reflexivity]);
    right; (split; [congruence |]); auto.
Qed.



(** X16. Whatever lines are read for the weather, the tyres and ABS, a menu
    entry is selected for each (no [KeyError]), and the combined friction is
    [base_mu * tyre_factor], plus 0.05 with ABS: it lies between 0.05 and
    0.90, so the floor of 0.01 is never what [main] gets. *)
Theorem menu_friction_range (w_choice tyre_choice abs_choice : string) :
  exists (weather_desc tyre_desc : string) (base_mu tyre_factor : R),
    select_weather w_choice = Some (weather_desc, base_mu) /\
    select_tyre tyre_choice = Some (tyre_desc, tyre_factor) /\
    calc_final_friction base_mu tyre_factor (select_abs abs_choice)
      = base_mu * tyre_factor + (if select_abs abs_choice then 0.05 else 0) /\
    0.05 <= calc_final_friction base_mu tyre_factor (select_abs abs_choice)
         <= 0.90.
Proof.
  destruct (select_weather_cases w_choice) as (wd & base & Hw & Hbase).
  destruct (select_tyre_cases tyre_choice) as (td & tf & Ht & Htf).
  exists wd, td, base, tf. split; [exact Hw |]. split; [exact Ht |].
  unfold calc_final_friction, py_max. cbv zeta.
  destruct Hbase as [[_ ->] | [_ [-> | [-> | ->]]]];
    destruct Htf as [[_ ->] | [_ [-> | ->]]];
    destruct (select_abs abs_choice);
    match goal with
    | |- context [Rgt_dec ?a ?b] => destruct (Rgt_dec a b)
    end; split; lra.
Qed.

(** X17. Whatever index is read for the car, a car of the database is
    selected (no [KeyError], no [IndexError]), with a mass between 1300 and
    2100 kg, a drag coefficient between 0.28 and 0.42 and a frontal area
    between 2.2 and 2.7 m2; a line that is no integer and an index outside
    1 .. 10 select the Toyota Corolla, an index inside selects the car at
    that position of the database. *)
Theorem select_car_total (idx : option Z) :
  exists (chosen_car : string) (car_mass c_d f_area : R),
    select_car idx = Some (chosen_car, (car_mass, c_d, f_area)) /\
    In (chosen_car, (car_mass, c_d, f_area)) CAR_DATABASE /\
    1300 <= car_mass <= 2100 /\ 0.28 <= c_d <= 0.42 /\ 2.2 <= f_area <= 2.7 /\
    match idx with
    | None => chosen_car = "Toyota Corolla"%string
    | Some i =>
        ((i < 1 \/ 10 < i)%Z -> chosen_car = "Toyota Corolla"%string) /\
        ((1 <= i <= 10)%Z ->
         nth_error CAR_DATABASE (Z.to_nat (i - 1))
         = Some (chosen_car, (car_mass, c_d, f_area)))
    end.
Proof.
  destruct idx as [i |].
  - unfold select_car. cbv zeta.
    change (dict_get CAR_DATABASE "Toyota Corolla")
      with (Some (1300, 0.29, 2.2) : option (R * R * R)).
    change (Z.of_nat (List.length car_keys)) with 10%Z.
    destruct (i <? 1)%Z eqn:E1.
    { apply Z.ltb_lt in E1. simpl orb. cbv iota.
      do 4 eexists. split; [reflexivity |].
      split; [simpl; auto |]. repeat split; try lra. lia. }
    destruct (i >? 10)%Z eqn:E2.
    { rewrite Z.gtb_ltb in E2. apply Z.ltb_lt in E2. simpl orb. cbv iota.
      do 4 eexists. split; [reflexivity |].
      split; [simpl; auto |]. repeat split; try lra. lia. }
    simpl orb. cbv iota.
    apply Z.ltb_ge in E1.
    rewrite Z.gtb_ltb in E2. apply Z.ltb_ge in E2.
    assert (Hi : (i = 1 \/ i = 2 \/ i = 3 \/ i = 4 \/ i = 5 \/
                  i = 6 \/ i = 7 \/ i = 8 \/ i = 9 \/ i = 10)%Z) by lia.
    repeat (destruct Hi as [-> | Hi]); try subst i;
      (do 4 eexists; split; [reflexivity |];
       split; [simpl; auto 12 |];
       repeat split; try lra; try lia; try reflexivity).
  - do 4 eexists. split; [reflexivity |].
    split; [simpl; auto |]. repeat split; try lra.
Qed.





